(** * Port entity exporter: a shallow embedding of [port_entity_exporter.py]

    The development follows the structure of the script:
    - [Py]: the Python values the exporter handles (decoded JSON), their
      truth value, insertion-ordered dictionaries and exceptions;
    - [Client]: the three catalog calls of [PortEntityExporter], with the
      log of calls they make;
    - [Planner]: the three export modes and the dispatch done by [main];
    - [Serializer]: [save_entities] and the files it writes;
    - [Spec]: the vocabulary used to state the expected behaviour;
    - [Samples]: two small catalogs on which the statements are evaluated;
    - [Exporter]: the exporter object, [authenticate], and the two listing
      calls at the level of the HTTP exchange;
    - [Cli]: [main], from its arguments to the exit status and the files;
    - [Behaviour]: the vocabulary of the further properties;
    - [RunSamples]: sample command lines.
    The lemmas about the model follow, then the claims, each with the
    inputs it is checked on, and then further properties of the code.

    Strings are byte strings: comparing them byte by byte orders UTF-8
    text as Python orders it by code point. Log output ([logger.info] and
    friends) and the summary printed by [save_entities] are presentation
    only and are not part of the model. *)

From Stdlib Require Import ZArith Ascii String Floats.SpecFloat.
From stdpp Require Import gmap strings list sorting.

Local Open Scope string_scope.
Local Open Scope list_scope.

#[local] Set Warnings "-clear-no-such-hyp".

(** ** Python values *)

Module Py.

(** A decoded JSON document, as [response.json()] returns it: [None],
    booleans, integers, floats, strings, lists, and dictionaries with string
    keys in insertion order. *)
#[warnings="-register-all"]
Inductive pyval : Type :=
| PNone
| PBool (b : bool)
| PInt (n : Z)
| PFloat (f : spec_float)
| PStr (s : string)
| PList (items : list pyval)
| PDict (fields : list (string * pyval)).

(** Exceptions that the modelled code can raise. [ConnectionError],
    [HTTPError] and [JSONDecodeError] are the [requests] exceptions, all
    subclasses of [requests.exceptions.RequestException]. *)
Inductive exn : Type :=
| ConnectionError
| HTTPError (status : Z)
| JSONDecodeError
| AttributeError
| TypeError
| ValueError.

Definition is_request_exception (e : exn) : bool :=
  match e with
  | ConnectionError | HTTPError _ | JSONDecodeError => true
  | _ => false
  end.

(** The outcome of a Python expression or statement: a value, or a raised
    exception. *)
Inductive result (A : Type) : Type :=
| Return (a : A)
| Raise (e : exn).
Global Arguments Return {A} a.
Global Arguments Raise {A} e.

Global Instance result_ret : MRet result := @Return.
Global Instance result_bind : MBind result := λ A B f m,
  match m with
  | Return a => f a
  | Raise e => Raise e
  end.

(** [bool(v)]: the truth value Python gives to [if v:] and [not v]. *)
Definition truthy (v : pyval) : bool :=
  match v with
  | PNone => false
  | PBool b => b
  | PInt n => negb (n =? 0)%Z
  | PFloat (S754_zero _) => false
  | PFloat _ => true
  | PStr s => negb (String.eqb s EmptyString)
  | PList items => negb (bool_decide (items = []))
  | PDict fields => negb (bool_decide (fields = []))
  end.

(** Lists and dictionaries are unhashable: looking one up in a set or using
    it as a key raises [TypeError]. *)
Definition hashable (v : pyval) : bool :=
  match v with
  | PList _ | PDict _ => false
  | _ => true
  end.

(** [v in s] for a set [s] of strings. No value other than a string is
    equal to a string, so the answer is [False] for every other hashable
    value. *)
Definition py_in (v : pyval) (s : gset string) : result bool :=
  match v with
  | PStr x => Return (bool_decide (x ∈ s))
  | PList _ | PDict _ => Raise TypeError
  | _ => Return false
  end.

(** *** Insertion-ordered dictionaries with string keys

    A Python [dict] keeps its keys in insertion order; assigning to a key
    that is present replaces the value in place. *)
Section Dict.
Context {V : Type}.

Definition dict : Type := list (string * V).

Fixpoint dict_get (k : string) (d : dict) : option V :=
  match d with
  | [] => None
  | (k', v) :: d' => if String.eqb k' k then Some v else dict_get k d'
  end.

(** [d[k] = v] *)
Fixpoint dict_set (k : string) (v : V) (d : dict) : dict :=
  match d with
  | [] => [(k, v)]
  | (k', v') :: d' =>
      if String.eqb k' k then (k', v) :: d' else (k', v') :: dict_set k v d'
  end.

(** [k in d] *)
Definition dict_mem (k : string) (d : dict) : bool :=
  bool_decide (is_Some (dict_get k d)).

(** [d.keys()] *)
Definition dict_keys (d : dict) : list string := d.*1.

(** [d.values()] *)
Definition dict_values (d : dict) : list V := d.*2.
End Dict.
Global Arguments dict V : clear implicits.

(** [v.get(k, default)]: only dictionaries have a [get] method. *)
Definition py_get (v : pyval) (k : string) (dflt : pyval) : result pyval :=
  match v with
  | PDict fields => Return (default dflt (dict_get k fields))
  | _ => Raise AttributeError
  end.

(** [v.items()]: only dictionaries have an [items] method. *)
Definition py_items (v : pyval) : result (list (string * pyval)) :=
  match v with
  | PDict fields => Return fields
  | _ => Raise AttributeError
  end.

End Py.
Export Py.

(** ** The catalog client *)

Module Client.

(** A blueprint as [get_blueprints] returns it. The exporter reads only its
    ['identifier'], which it passes on as [blueprint_id: str] and uses as a
    key of the export result; [None] stands for a missing or null
    identifier. The other fields are never inspected. *)
Record blueprint : Type := Blueprint {
  bp_identifier : option string;
  bp_fields : dict pyval
}.

(** What [self.session.get(url, params=params)] produces: the call raises
    (a connection error, a timeout, ...), or a response comes back with a
    status code and a body, which [response.json()] either decodes or
    rejects ([None]). *)
Inductive http_outcome : Type :=
| NoResponse
| Response (status_code : Z) (json : option pyval).

(** The service on the other side of the session; its answers are a
    function of the request. [get_blueprints] and
    [get_entities_for_blueprint] catch every exception and return a list in
    all cases (the empty list on any failure): [blueprints_listing] and
    [entities_listing] are those lists, at their declared types.
    [session_get] answers the single-entity requests of [get_entity]. *)
Record catalog : Type := Catalog {
  base_url : string;
  blueprints_listing : list blueprint;
  entities_listing : string → bool → list pyval;
  session_get : string → list (string * string) → http_outcome
}.

(** The calls made on the client, in the order they are made. *)
Inductive call : Type :=
| CallGetBlueprints
| CallGetEntities (blueprint_id : string) (include_calculated : bool)
| CallGetEntity (blueprint_id entity_id : string) (include_calculated : bool).

(** A computation that calls the client: it extends the log of calls and
    returns a value or raises. *)
Definition client (A : Type) : Type := list call → result A * list call.

Global Instance client_ret : MRet client := λ A a log, (Return a, log).
Global Instance client_bind : MBind client := λ A B f m log,
  match m log with
  | (Return a, log') => f a log'
  | (Raise e, log') => (Raise e, log')
  end.

(** A pure outcome inside a client computation. *)
Definition lift {A} (r : result A) : client A := λ log, (r, log).

Definition record_call (c : call) : client unit := λ log, (Return tt, log ++ [c]).

(** [for x in xs: body], threading the variables the body assigns. *)
Fixpoint for_each {M : Type → Type} `{!MRet M, !MBind M} {A S : Type}
    (xs : list A) (s : S) (body : S → A → M S) : M S :=
  match xs with
  | [] => mret s
  | x :: xs' => s' ← body s x; for_each xs' s' body
  end.

Definition get_blueprints (srv : catalog) : client (list blueprint) :=
  _ ← record_call CallGetBlueprints;
  mret (blueprints_listing srv).

Definition get_entities_for_blueprint (srv : catalog) (blueprint_id : string)
    (include_calculated : bool) : client (list pyval) :=
  _ ← record_call (CallGetEntities blueprint_id include_calculated);
  mret (entities_listing srv blueprint_id include_calculated).

Definition entity_url (srv : catalog) (blueprint_id entity_id : string) : string :=
  base_url srv +:+ "/blueprints/" +:+ blueprint_id +:+ "/entities/" +:+ entity_id.

Definition calculated_params (include_calculated : bool) : list (string * string) :=
  if include_calculated then [] else [("exclude_calculated_properties", "true")].

(** [response.raise_for_status()] *)
Definition raise_for_status (status_code : Z) : result unit :=
  if bool_decide (400 ≤ status_code < 600)%Z then Raise (HTTPError status_code)
  else Return tt.

(** [response.json()] *)
Definition response_json (json : option pyval) : result pyval :=
  match json with
  | Some data => Return data
  | None => Raise JSONDecodeError
  end.

(** The body of the [try] block of [get_entity]. *)
Definition get_entity_try (srv : catalog) (blueprint_id entity_id : string)
    (include_calculated : bool) : result pyval :=
  let url := entity_url srv blueprint_id entity_id in
  let params := calculated_params include_calculated in
  match session_get srv url params with
  | NoResponse => Raise ConnectionError
  | Response status_code json =>
      _ ← raise_for_status status_code;
      data ← response_json json;
      entity ← py_get data "entity" PNone;
      if truthy entity then Return entity else Return PNone
  end.

(** [get_entity]: the [try] block with its two handlers,
    [except requests.exceptions.RequestException] and [except Exception],
    each of which returns [None]. *)
Definition get_entity (srv : catalog) (blueprint_id entity_id : string)
    (include_calculated : bool) : client pyval :=
  _ ← record_call (CallGetEntity blueprint_id entity_id include_calculated);
  lift match get_entity_try srv blueprint_id entity_id include_calculated with
       | Return entity => Return entity
       | Raise e => if is_request_exception e then Return PNone else Return PNone
       end.

End Client.
Export Client.

(** ** The export planner *)

Module Planner.

(** The value every export mode returns: blueprint identifier to the list of
    entities exported under it, [Dict[str, List[Dict[str, Any]]]]. *)
Definition export_result : Type := dict (list pyval).

(** The body of the loop that filters out excluded entities.
    [export_all_entities] and [export_blueprint_entities] carry the same
    loop, statement for statement; [filtered_entities] is the list it
    appends to. *)
Definition filter_excluded_body (exclude_entities : gset string)
    (filtered_entities : list pyval) (entity : pyval) : result (list pyval) :=
  entity_id ← py_get entity "identifier" PNone;
  if truthy entity_id then
    excluded ← py_in entity_id exclude_entities;
    if negb excluded then mret (filtered_entities ++ [entity])
    else _ ← py_in entity_id exclude_entities; mret filtered_entities
  else
    _ ← py_in entity_id exclude_entities; mret filtered_entities.

Definition filter_excluded (exclude_entities : gset string)
    (entities : list pyval) : result (list pyval) :=
  for_each entities [] (filter_excluded_body exclude_entities).

(** [exclude_entities or set()]: [None] and the empty set both give the
    empty set. *)
Definition or_empty_set (exclude_entities : option (gset string)) : gset string :=
  default ∅ exclude_entities.

(** The statements both modes run for one blueprint: fetch its entities,
    filter them, and record them under the blueprint unless none is left. *)
Definition export_blueprint (srv : catalog) (exclude_entities : gset string)
    (include_calculated : bool) (exported : export_result) (blueprint_id : string)
    : client export_result :=
  entities ← get_entities_for_blueprint srv blueprint_id include_calculated;
  filtered_entities ← lift (filter_excluded exclude_entities entities);
  if bool_decide (filtered_entities = []) then mret exported
  else mret (dict_set blueprint_id filtered_entities exported).

Definition export_all_entities (srv : catalog)
    (exclude_entities : option (gset string)) (include_calculated : bool)
    : client export_result :=
  let exclude_entities := or_empty_set exclude_entities in
  let all_entities : export_result := [] in
  blueprints ← get_blueprints srv;
  if bool_decide (blueprints = []) then mret all_entities
  else
    for_each blueprints all_entities (λ all_entities blueprint,
      match bp_identifier blueprint with
      | None => mret all_entities
      | Some blueprint_id =>
          if String.eqb blueprint_id EmptyString then mret all_entities
          else export_blueprint srv exclude_entities include_calculated
                 all_entities blueprint_id
      end).

Definition export_blueprint_entities (srv : catalog) (blueprint_ids : list string)
    (exclude_entities : option (gset string)) (include_calculated : bool)
    : client export_result :=
  let exclude_entities := or_empty_set exclude_entities in
  let selected_entities : export_result := [] in
  for_each blueprint_ids selected_entities
    (export_blueprint srv exclude_entities include_calculated).

(** [':' in spec] *)
Fixpoint has_colon (spec : string) : bool :=
  match spec with
  | EmptyString => false
  | String c rest => Ascii.eqb c ":"%char || has_colon rest
  end.

(** [spec.split(':', 1)]: at most one split, at the first colon. *)
Fixpoint split_colon_once (spec : string) : list string :=
  match spec with
  | EmptyString => [EmptyString]
  | String c rest =>
      if Ascii.eqb c ":"%char then [EmptyString; rest]
      else match split_colon_once rest with
           | head :: tail => String c head :: tail
           | [] => []
           end
  end.

(** [blueprint_id, entity_id = parts]: unpacking needs exactly two parts. *)
Definition unpack_pair (parts : list string) : result (string * string) :=
  match parts with
  | [blueprint_id; entity_id] => Return (blueprint_id, entity_id)
  | _ => Raise ValueError
  end.

(** [if blueprint_id not in d: d[blueprint_id] = []] followed by
    [d[blueprint_id].append(entity)]. *)
Definition append_entity (blueprint_id : string) (entity : pyval)
    (specific_entities : export_result) : export_result :=
  let d :=
    if negb (dict_mem blueprint_id specific_entities)
    then dict_set blueprint_id [] specific_entities
    else specific_entities in
  dict_set blueprint_id (default [] (dict_get blueprint_id d) ++ [entity]) d.

(** The statements run for one lookup: fetch the entity and, when one comes
    back, append it under the blueprint it was asked from. *)
Definition export_entity (srv : catalog) (include_calculated : bool)
    (specific_entities : export_result) (blueprint_id entity_id : string)
    : client export_result :=
  entity ← get_entity srv blueprint_id entity_id include_calculated;
  if truthy entity then mret (append_entity blueprint_id entity specific_entities)
  else mret specific_entities.

Definition export_specific_entities (srv : catalog) (entity_specs : list string)
    (include_calculated : bool) : client export_result :=
  let specific_entities : export_result := [] in
  let entities_with_blueprint := filter (λ spec, has_colon spec = true) entity_specs in
  let entities_without_blueprint := filter (λ spec, has_colon spec = false) entity_specs in
  specific_entities ←
    for_each entities_with_blueprint specific_entities (λ specific_entities spec,
      '(blueprint_id, entity_id) ← lift (unpack_pair (split_colon_once spec));
      export_entity srv include_calculated specific_entities blueprint_id entity_id);
  if bool_decide (entities_without_blueprint = []) then mret specific_entities
  else
    blueprints ← get_blueprints srv;
    for_each blueprints specific_entities (λ specific_entities blueprint,
      match bp_identifier blueprint with
      | None => mret specific_entities
      | Some blueprint_id =>
          if String.eqb blueprint_id EmptyString then mret specific_entities
          else
            for_each entities_without_blueprint specific_entities
              (λ specific_entities entity_id,
                export_entity srv include_calculated specific_entities
                  blueprint_id entity_id)
      end).

(** The export option chosen on the command line, with its parsed list. *)
Inductive export_option : Type :=
| ExportAll
| ExportBlueprints (blueprint_list : list string)
| ExportEntities (entity_list : list string).

(** The dispatch of [main] on the export option: the exclusion set parsed
    from [--exclude] is handed to the first two modes only. *)
Definition main_export (srv : catalog) (option : export_option)
    (exclude_set : gset string) (include_calculated : bool) : client export_result :=
  match option with
  | ExportAll => export_all_entities srv (Some exclude_set) include_calculated
  | ExportBlueprints blueprint_list =>
      export_blueprint_entities srv blueprint_list (Some exclude_set) include_calculated
  | ExportEntities entity_list =>
      export_specific_entities srv entity_list include_calculated
  end.

(** [sum(len(entities) for entities in result.values())] *)
Definition total_entities (entities : export_result) : nat :=
  sum_list (length <$> dict_values entities).

End Planner.
Export Planner.

(** ** The serializer *)

Module Serializer.

(** What a written file holds. The text encoders are library code
    ([json.dump], [yaml.safe_dump], [csv.DictWriter]); a file is described
    by the data handed to its encoder: the whole export result for the two
    document formats, the header and the rows of cells for CSV. *)
Inductive file_content : Type :=
| JsonDocument (entities : export_result)
| YamlDocument (entities : export_result)
| CsvTable (fieldnames : list string) (rows : list (list pyval)).

(** The files on disk, by path. Directories and I/O failures are not
    modelled. *)
Abbreviation filesystem := (gmap string file_content).

(** [str.lower()] on ASCII letters. *)
Definition lower_ascii (c : ascii) : ascii :=
  let n := nat_of_ascii c in
  if bool_decide (65 ≤ n ≤ 90)%nat then ascii_of_nat (n + 32) else c.

Fixpoint lower (s : string) : string :=
  match s with
  | EmptyString => EmptyString
  | String c rest => String (lower_ascii c) (lower rest)
  end.

(** The seven columns every row starts with, in the order the row
    dictionary is built. *)
Definition fixed_columns : list string :=
  ["blueprint_id"; "entity_id"; "title"; "created_at"; "updated_at";
   "created_by"; "updated_by"].

Section Flatten.
(** Python's builtin [str] on a value that is not [None]; its rendering
    of numbers and containers is left abstract. *)
Variable py_str : pyval → string.

(** [str(value) if value is not None else ''] *)
Definition cell_text (value : pyval) : pyval :=
  match value with
  | PNone => PStr EmptyString
  | _ => PStr (py_str value)
  end.

(** The loops [for key, value in items: row[f'{prefix}{key}'] = ...]. *)
Definition add_columns (prefix : string) (items : list (string * pyval))
    (row : dict pyval) : dict pyval :=
  foldl (λ row item, dict_set (prefix +:+ item.1) (cell_text item.2) row)
    row items.

(** The row built for one entity of the blueprint [blueprint_id]. *)
Definition flatten_entity (blueprint_id : string) (entity : pyval)
    : result (dict pyval) :=
  entity_id ← py_get entity "identifier" (PStr EmptyString);
  title ← py_get entity "title" (PStr EmptyString);
  created_at ← py_get entity "createdAt" (PStr EmptyString);
  updated_at ← py_get entity "updatedAt" (PStr EmptyString);
  created_by ← py_get entity "createdBy" (PStr EmptyString);
  updated_by ← py_get entity "updatedBy" (PStr EmptyString);
  let row : dict pyval :=
    [("blueprint_id", PStr blueprint_id); ("entity_id", entity_id);
     ("title", title); ("created_at", created_at);
     ("updated_at", updated_at); ("created_by", created_by);
     ("updated_by", updated_by)] in
  properties ← py_get entity "properties" (PDict []);
  property_items ← py_items properties;
  let row := add_columns "prop_" property_items row in
  relations ← py_get entity "relations" (PDict []);
  relation_items ← py_items relations;
  let row := add_columns "rel_" relation_items row in
  mret row.

(** The nested loops that fill [flattened_data]. *)
Definition flatten (entities : export_result) : result (list (dict pyval)) :=
  for_each entities [] (λ flattened_data item,
    for_each item.2 flattened_data (λ flattened_data entity,
      row ← flatten_entity item.1 entity;
      mret (flattened_data ++ [row]))).

(** [fieldnames = set()] updated with the keys of every row. *)
Definition collect_fieldnames (flattened_data : list (dict pyval)) : gset string :=
  foldl (λ fieldnames row, fieldnames ∪ list_to_set (dict_keys row))
    ∅ flattened_data.

(** [sorted(fieldnames)] *)
Definition sorted (fieldnames : gset string) : list string :=
  merge_sort String.le (elements fieldnames).

(** The cells [DictWriter] writes for one row: the row's value under each
    field name, the empty string ([restval]) where the row has none. Every
    key of every row is among the field names (see
    [collect_fieldnames_covers]), so the writer's check for extra keys
    never fires. *)
Definition row_cells (fieldnames : list string) (row : dict pyval) : list pyval :=
  (λ key, default (PStr EmptyString) (dict_get key row)) <$> fieldnames.

(** [save_entities]: the file system after the call, and whether the call
    returned or raised. *)
Definition save_entities (entities : export_result) (output_file : string)
    (format : string) (fs : filesystem) : result unit * filesystem :=
  if String.eqb (lower format) "json" then
    (Return tt, <[output_file := JsonDocument entities]> fs)
  else if String.eqb (lower format) "yaml" then
    (Return tt, <[output_file := YamlDocument entities]> fs)
  else if String.eqb (lower format) "csv" then
    match flatten entities with
    | Raise e => (Raise e, fs)
    | Return flattened_data =>
        if bool_decide (flattened_data = []) then (Return tt, fs)
        else
          let fieldnames := sorted (collect_fieldnames flattened_data) in
          let rows := row_cells fieldnames <$> flattened_data in
          (Return tt, <[output_file := CsvTable fieldnames rows]> fs)
    end
  else (Raise ValueError, fs).
End Flatten.

End Serializer.
Export Serializer.

(** ** Vocabulary of the specification

    Definitions used to state what the exporter is expected to do. None of
    them is used by the model of the code above. *)

Module Spec.

(** The identifier of an entity, [None] when it has none. *)
Definition identifier_of (entity : pyval) : pyval :=
  match entity with
  | PDict fields => default PNone (dict_get "identifier" fields)
  | _ => PNone
  end.

(** The identifier of the entity is a member of the exclusion set. *)
Definition is_excluded (exclude : gset string) (entity : pyval) : bool :=
  match identifier_of entity with
  | PStr x => bool_decide (x ∈ exclude)
  | _ => false
  end.

(** The filter as the specification words it: the entities whose identifier
    is not in the exclusion set, in their original order. *)
Definition filter_as_specified (exclude : gset string) (entities : list pyval)
    : list pyval :=
  filter (λ entity, is_excluded exclude entity = false) entities.

(** The entities that have a truthy identifier (in particular one that is
    present, not null and not empty) which is not in the exclusion set. *)
Definition kept_entities (exclude : gset string) (entities : list pyval)
    : list pyval :=
  filter (λ entity, truthy (identifier_of entity) = true
                    ∧ is_excluded exclude entity = false) entities.

(** An entity of a listing is a mapping, and its identifier can be looked up
    in a set. *)
Definition listed_entity (entity : pyval) : Prop :=
  (∃ fields, entity = PDict fields) ∧ hashable (identifier_of entity) = true.

(** The identifiers of the blueprints that the loops over blueprints do not
    skip: those that are present and not empty. *)
Definition blueprint_ids_of (blueprints : list blueprint) : list string :=
  omap (λ blueprint,
          match bp_identifier blueprint with
          | Some blueprint_id =>
              if String.eqb blueprint_id EmptyString then None else Some blueprint_id
          | None => None
          end) blueprints.

(** A mapping entry for a sequence, omitted when the sequence is empty. *)
Definition unless_empty (entities : list pyval) : option (list pyval) :=
  if bool_decide (entities = []) then None else Some entities.

(** What recording the kept entities of one blueprint does to the result. *)
Definition record_kept (srv : catalog) (exclude : gset string)
    (include_calculated : bool) (exported : dict (list pyval))
    (blueprint_id : string) : dict (list pyval) :=
  match unless_empty
          (kept_entities exclude (entities_listing srv blueprint_id include_calculated))
  with
  | Some kept => dict_set blueprint_id kept exported
  | None => exported
  end.

(** The value [get_entity] returns, as a function of the request: the
    entity when the [try] block returns one, [None] otherwise. *)
Definition entity_lookup (srv : catalog) (blueprint_id entity_id : string)
    (include_calculated : bool) : pyval :=
  match get_entity_try srv blueprint_id entity_id include_calculated with
  | Return entity => entity
  | Raise _ => PNone
  end.

(** Every value of the mapping is a non-empty list. *)
Definition all_nonempty (exported : export_result) : Prop :=
  Forall (λ item, item.2 ≠ []) exported.

(** What the mapping holds under a blueprint is the outcome of filtering
    that blueprint's listing. *)
Definition holds_filtered (srv : catalog) (include_calculated : bool)
    (exclude : gset string) (exported : export_result) : Prop :=
  ∀ c l, dict_get c exported = Some l →
    filter_excluded exclude (entities_listing srv c include_calculated) = Return l.

(** The two halves of an explicit spec: what precedes its first colon and
    what follows it. *)
Fixpoint before_colon (spec : string) : string :=
  match spec with
  | EmptyString => EmptyString
  | String c rest =>
      if Ascii.eqb c ":"%char then EmptyString else String c (before_colon rest)
  end.

Fixpoint after_colon (spec : string) : string :=
  match spec with
  | EmptyString => EmptyString
  | String c rest => if Ascii.eqb c ":"%char then rest else after_colon rest
  end.

(** The (blueprint, entity) pairs that the explicit specs name, in order. *)
Definition explicit_lookups (entity_specs : list string) : list (string * string) :=
  (λ spec, (before_colon spec, after_colon spec))
    <$> filter (λ spec, has_colon spec = true) entity_specs.

(** Every usable blueprint identifier paired with every bare identifier,
    blueprint by blueprint. *)
Definition bare_lookups (srv : catalog) (entity_specs : list string)
    : list (string * string) :=
  c ← blueprint_ids_of (blueprints_listing srv);
  e ← filter (λ spec, has_colon spec = false) entity_specs;
  [(c, e)].

Definition lookup_call (include_calculated : bool) (pair : string * string) : call :=
  CallGetEntity pair.1 pair.2 include_calculated.

(** What one lookup does to the result: a hit is appended under the
    blueprint it was asked from. *)
Definition record_lookup (srv : catalog) (include_calculated : bool)
    (exported : export_result) (pair : string * string) : export_result :=
  let entity := entity_lookup srv pair.1 pair.2 include_calculated in
  if truthy entity then append_entity pair.1 entity exported else exported.

(** The hits among the lookups made for the blueprint [c], in order and
    with repetitions. *)
Definition hits_under (srv : catalog) (include_calculated : bool) (c : string)
    (pairs : list (string * string)) : list pyval :=
  (λ pair, entity_lookup srv pair.1 pair.2 include_calculated)
    <$> filter (λ pair, pair.1 = c
                  ∧ truthy (entity_lookup srv pair.1 pair.2 include_calculated) = true)
          pairs.

(** The ways a single-entity request yields no entity: the request raises,
    the server answers with an error status (404 included), the body is not
    JSON, the body is not a mapping, or it has no usable ['entity'] field. *)
Inductive lookup_failure : http_outcome → Prop :=
| transport_error :
    lookup_failure NoResponse
| error_status (status_code : Z) (json : option pyval) :
    (400 ≤ status_code < 600)%Z → lookup_failure (Response status_code json)
| undecodable_body (status_code : Z) :
    lookup_failure (Response status_code None)
| body_not_a_mapping (status_code : Z) (data : pyval) :
    (∀ fields, data ≠ PDict fields) →
    lookup_failure (Response status_code (Some data))
| entity_not_found (status_code : Z) (fields : dict pyval) :
    truthy (default PNone (dict_get "entity" fields)) = false →
    lookup_failure (Response status_code (Some (PDict fields))).

(** The bare-identifier search as the specification words it: every bare
    identifier is looked up in every blueprint that was listed. *)
Definition searched_in_every_blueprint (srv : catalog) (entity_specs : list string)
    (include_calculated : bool) : Prop :=
  ∀ b c e,
    b ∈ blueprints_listing srv → bp_identifier b = Some c →
    e ∈ entity_specs → has_colon e = false →
    CallGetEntity c e include_calculated
      ∈ (export_specific_entities srv entity_specs include_calculated []).2.

(** The entities of an export result with the blueprint each is listed
    under, in the order the result holds them. *)
Definition entity_rows (entities : export_result) : list (string * pyval) :=
  item ← entities; (λ entity, (item.1, entity)) <$> item.2.

(** A field that is either absent or a mapping. *)
Definition mapping_or_absent (k : string) (fields : dict pyval) : Prop :=
  dict_get k fields = None ∨ ∃ m, dict_get k fields = Some (PDict m).

(** An entity as the data model has it: a mapping whose properties and
    relations, when present, are mappings. *)
Definition flattenable (entity : pyval) : Prop :=
  ∃ fields, entity = PDict fields
            ∧ mapping_or_absent "properties" fields
            ∧ mapping_or_absent "relations" fields.

(** The keys of the mapping an entity holds under [k]. *)
Definition keys_under (k : string) (entity : pyval) : list string :=
  match entity with
  | PDict fields =>
      match dict_get k fields with
      | Some (PDict m) => dict_keys m
      | _ => []
      end
  | _ => []
  end.

(** The columns one entity contributes: the seven fixed ones, one
    [prop_<k>] per property key and one [rel_<k>] per relation key. *)
Definition entity_columns (entity : pyval) : list string :=
  fixed_columns
  ++ ((λ k, "prop_" +:+ k) <$> keys_under "properties" entity)
  ++ ((λ k, "rel_" +:+ k) <$> keys_under "relations" entity).

(** The row dictionary built for an entity that can be flattened. *)
Definition entity_row (py_str : pyval → string) (item : string * pyval)
    : dict pyval :=
  match flatten_entity py_str item.1 item.2 with
  | Return row => row
  | Raise _ => []
  end.

End Spec.
Export Spec.

(** ** Sample catalogs *)

Module Samples.

Definition entity_named (identifier : string) : pyval :=
  PDict [("identifier", PStr identifier); ("title", PStr "sample")].

(** Blueprints [svc], [infra] and [net]. [svc] lists the entities [a] and
    [b] and one entity whose identifier is empty; the entity [db-1] can be
    fetched from [infra] and from [net]; every other single-entity request
    is answered with status 404. *)
Definition sample_catalog : catalog := {|
  base_url := "https://api.getport.io/v1";
  blueprints_listing :=
    [Blueprint (Some "svc") []; Blueprint (Some "infra") [];
     Blueprint (Some "net") []];
  entities_listing := λ blueprint_id _,
    if String.eqb blueprint_id "svc"
    then [entity_named "a"; entity_named "b"; entity_named EmptyString]
    else [];
  session_get := λ url _,
    if String.eqb url "https://api.getport.io/v1/blueprints/infra/entities/db-1"
       || String.eqb url "https://api.getport.io/v1/blueprints/net/entities/db-1"
    then Response 200 (Some (PDict [("ok", PBool true); ("entity", entity_named "db-1")]))
    else Response 404 (Some (PDict [("ok", PBool false); ("error", PStr "not_found")]))
|}.

(** A catalog whose only blueprint has the empty string as identifier, and
    whose single-entity requests all succeed. *)
Definition unnamed_blueprint_catalog : catalog := {|
  base_url := "https://api.getport.io/v1";
  blueprints_listing := [Blueprint (Some EmptyString) []];
  entities_listing := λ _ _, [];
  session_get := λ _ _, Response 200 (Some (PDict [("entity", entity_named "x")]))
|}.

End Samples.
Export Samples.

(** ** The exporter object and its HTTP calls *)

Module Exporter.

(** [s.rstrip('/')]: [s] without its trailing slashes. *)
Fixpoint rstrip_slash (s : string) : string :=
  match s with
  | EmptyString => EmptyString
  | String c rest =>
      match rstrip_slash rest with
      | EmptyString =>
          if Ascii.eqb c "/"%char then EmptyString else String c EmptyString
      | String c' rest' => String c (String c' rest')
      end
  end.

(** The state of a [PortEntityExporter]: its three settings, the access
    token, and the headers it has put on its session. *)
Record exporter : Type := MakeExporter {
  client_id : string;
  client_secret : string;
  exporter_base_url : string;
  access_token : pyval;
  session_headers : dict string
}.

(** [PortEntityExporter.__init__] *)
Definition init (client_id client_secret base_url : string) : exporter :=
  {| client_id := client_id;
     client_secret := client_secret;
     exporter_base_url := rstrip_slash base_url;
     access_token := PNone;
     session_headers :=
       dict_set "User-Agent" "PortEntityExporter/1.0"
         (dict_set "Content-Type" "application/json" []) |}.

(** The endpoint [authenticate] posts to. *)
Definition auth_url : string := "https://api.getport.io/v1/auth/access_token".

(** The [payload] dictionary of [authenticate]. *)
Definition auth_payload (self : exporter) : pyval :=
  PDict [("clientId", PStr (client_id self));
         ("clientSecret", PStr (client_secret self))].

Section Authenticate.
(** [requests.post(url, json=payload)], and Python's builtin [str] on a
    value that is not a string. *)
Variable requests_post : string → pyval → http_outcome.
Variable py_str : pyval → string.

(** [f'{value}'] *)
Definition format_value (value : pyval) : string :=
  match value with
  | PStr s => s
  | _ => py_str value
  end.

(** The [try] block of [authenticate]: its outcome and the exporter as the
    block leaves it. The token is stored before it is tested. *)
Definition authenticate_try (self : exporter) : result bool * exporter :=
  let payload := auth_payload self in
  match requests_post auth_url payload with
  | NoResponse => (Raise ConnectionError, self)
  | Response status_code json =>
      match
        _ ← raise_for_status status_code;
        token_data ← response_json json;
        py_get token_data "accessToken" PNone
      with
      | Raise e => (Raise e, self)
      | Return token =>
          let self :=
            {| client_id := client_id self;
               client_secret := client_secret self;
               exporter_base_url := exporter_base_url self;
               access_token := token;
               session_headers := session_headers self |} in
          if negb (truthy token) then (Return false, self)
          else
            (Return true,
             {| client_id := client_id self;
                client_secret := client_secret self;
                exporter_base_url := exporter_base_url self;
                access_token := token;
                session_headers :=
                  dict_set "Authorization" ("Bearer " +:+ format_value token)
                    (session_headers self) |})
      end
  end.

(** [authenticate]: both handlers return [False]. *)
Definition authenticate (self : exporter) : bool * exporter :=
  match authenticate_try self with
  | (Return authenticated, self') => (authenticated, self')
  | (Raise e, self') =>
      if is_request_exception e then (false, self') else (false, self')
  end.
End Authenticate.

(** [len(v)]: defined on lists, dictionaries and strings only. Only
    whether it is defined matters to the callers below. *)
Definition py_len (v : pyval) : result nat :=
  match v with
  | PList items => Return (length items)
  | PDict fields => Return (length fields)
  | PStr s => Return (String.length s)
  | _ => Raise TypeError
  end.

(** What [get_blueprints] and [get_entities_for_blueprint] do with the
    response, statement for statement the same in both: check the status,
    decode the body, read the field (the empty list when it is missing) and
    take its length for the log message. *)
Definition read_listing (outcome : http_outcome) (field : string) : result pyval :=
  match outcome with
  | NoResponse => Raise ConnectionError
  | Response status_code json =>
      _ ← raise_for_status status_code;
      data ← response_json json;
      listing ← py_get data field (PList []);
      _ ← py_len listing;
      Return listing
  end.

(** [get_blueprints] at the level of the HTTP exchange: the [try] block
    and its two handlers, which return the empty list. *)
Definition get_blueprints_http (srv : catalog) : pyval :=
  let url := base_url srv +:+ "/blueprints" in
  match read_listing (session_get srv url []) "blueprints" with
  | Return blueprints => blueprints
  | Raise e => if is_request_exception e then PList [] else PList []
  end.

(** [get_entities_for_blueprint] at the level of the HTTP exchange. *)
Definition get_entities_for_blueprint_http (srv : catalog) (blueprint_id : string)
    (include_calculated : bool) : pyval :=
  let url := base_url srv +:+ "/blueprints/" +:+ blueprint_id +:+ "/entities" in
  let params := calculated_params include_calculated in
  match read_listing (session_get srv url params) "entities" with
  | Return entities => entities
  | Raise e => if is_request_exception e then PList [] else PList []
  end.

End Exporter.
Export Exporter.

(** ** The command line *)

Module Cli.

(** The three values [click.Choice] admits for [--format]. *)
Inductive output_format : Type :=
| FormatJson
| FormatYaml
| FormatCsv.

Definition format_name (format : output_format) : string :=
  match format with
  | FormatJson => "json"
  | FormatYaml => "yaml"
  | FormatCsv => "csv"
  end.

(** The parameters of [main], as [click] hands them over: an option that
    was not given (and has no default) is [None]. *)
Record arguments : Type := MakeArguments {
  arg_export_all : bool;
  arg_blueprints : option string;
  arg_entities : option string;
  arg_exclude : option string;
  arg_output : string;
  arg_format : output_format;
  arg_include_calculated : bool;
  arg_client_id : option string;
  arg_client_secret : option string;
  arg_base_url : string;
  arg_verbose : bool
}.

(** [bool(option)] for an optional string: [None] and the empty string are
    false. *)
Definition given (option : option string) : bool :=
  match option with
  | Some s => negb (String.eqb s EmptyString)
  | None => false
  end.

(** [s.split(',')] *)
Fixpoint split_commas (s : string) : list string :=
  match s with
  | EmptyString => [EmptyString]
  | String c rest =>
      if Ascii.eqb c ","%char then EmptyString :: split_commas rest
      else
        match split_commas rest with
        | piece :: pieces => String c piece :: pieces
        | [] => [String c EmptyString]
        end
  end.

(** [s.endswith(suffix)] *)
Fixpoint endswith (s suffix : string) : bool :=
  String.eqb s suffix
  || match s with
     | EmptyString => false
     | String _ rest => endswith rest suffix
     end.

(** The name of the file [main] saves to: [output] with the extension of
    the format added unless it already ends with it. *)
Definition output_file (output : string) (format : output_format) : string :=
  if negb (endswith output ("." +:+ format_name format))
  then output +:+ "." +:+ format_name format
  else output.

(** What can be raised inside the [try] block of [main]: an exception of
    the exporter, or the [UnboundLocalError] of reading [exported_entities]
    when none of the three branches has assigned it. *)
Inductive main_exn : Type :=
| Raised (e : exn)
| UnboundLocalError.

(** The four places where [main] calls [sys.exit(1)]. *)
Inductive failure : Type :=
| MissingCredentials
| NotExactlyOneOption
| AuthenticationFailed
| ExportFailed (e : main_exn).

(** A run of [main]: how it ended ([None] when it returned, exit status 0),
    the authentication requests it posted, the calls it made on the
    exporter, and the files it left. *)
Record run : Type := Run {
  failed : option failure;
  posts : list (string * pyval);
  requests : list call;
  files : filesystem
}.


Section Main.
(** [str.strip()], [str] on a value that is not a string,
    [requests.post], and the catalog service that answers the exporter's
    session. *)
Variable py_strip : string → string.
Variable py_str : pyval → string.
Variable requests_post : string → pyval → http_outcome.
Variable port : catalog.

(** [[item.strip() for item in s.split(',') if item.strip()]] *)
Definition parse_list (s : string) : list string :=
  py_strip <$> filter (λ item, py_strip item ≠ EmptyString) (split_commas s).

(** [exclude_set]: empty unless [--exclude] is given. *)
Definition parse_exclude (exclude : option string) : gset string :=
  match exclude with
  | Some s =>
      if negb (String.eqb s EmptyString) then list_to_set (parse_list s) else ∅
  | None => ∅
  end.

(** The [if export_all: ... elif blueprints: ... elif entities: ...] chain:
    the mode that runs, [None] when no branch is taken. *)
Definition chosen_option (args : arguments) : option export_option :=
  if arg_export_all args then Some ExportAll
  else if given (arg_blueprints args) then
    Some (ExportBlueprints (parse_list (default EmptyString (arg_blueprints args))))
  else if given (arg_entities args) then
    Some (ExportEntities (parse_list (default EmptyString (arg_entities args))))
  else None.

(** The service as an exporter with the given base address sees it. *)
Definition service_at (url : string) : catalog :=
  {| base_url := url;
     blueprints_listing := blueprints_listing port;
     entities_listing := entities_listing port;
     session_get := session_get port |}.

(** The [try] block of [main] with its [except Exception] handler. *)
Definition export_and_save (args : arguments) (self : exporter)
    (exclude_set : gset string) (fs : filesystem)
    : option failure * list call * filesystem :=
  match chosen_option args with
  | None => (Some (ExportFailed UnboundLocalError), [], fs)
  | Some option =>
      let srv := service_at (exporter_base_url self) in
      match main_export srv option exclude_set (arg_include_calculated args) [] with
      | (Raise e, log) => (Some (ExportFailed (Raised e)), log, fs)
      | (Return exported_entities, log) =>
          let output_file := output_file (arg_output args) (arg_format args) in
          match
            save_entities py_str exported_entities output_file
              (format_name (arg_format args)) fs
          with
          | (Raise e, fs') => (Some (ExportFailed (Raised e)), log, fs')
          | (Return _, fs') => (None, log, fs')
          end
      end
  end.

(** [main] *)
Definition main (args : arguments) (fs : filesystem) : run :=
  if negb (given (arg_client_id args)) || negb (given (arg_client_secret args)) then
    {| failed := Some MissingCredentials; posts := []; requests := []; files := fs |}
  else
    let export_options :=
      [arg_export_all args; given (arg_blueprints args); given (arg_entities args)] in
    if negb (sum_list (Nat.b2n <$> export_options) =? 1)%nat then
      {| failed := Some NotExactlyOneOption; posts := []; requests := [];
         files := fs |}
    else
      let exporter :=
        init (default EmptyString (arg_client_id args))
          (default EmptyString (arg_client_secret args)) (arg_base_url args) in
      let posted := [(auth_url, auth_payload exporter)] in
      let '(authenticated, exporter) :=
        authenticate requests_post py_str exporter in
      if negb authenticated then
        {| failed := Some AuthenticationFailed; posts := posted; requests := [];
           files := fs |}
      else
        let exclude_set := parse_exclude (arg_exclude args) in
        let '(outcome, log, fs') := export_and_save args exporter exclude_set fs in
        {| failed := outcome; posts := posted; requests := log; files := fs' |}.
End Main.

End Cli.
Export Cli.

(** ** Vocabulary for the further properties *)

Module Behaviour.

(** An entity that the exclusion filter lets through: a mapping with a
    truthy identifier that is not in the exclusion set. *)
Definition passes_filter (exclude : gset string) (entity : pyval) : Prop :=
  (∃ fields, entity = PDict fields)
  ∧ truthy (identifier_of entity) = true
  ∧ is_excluded exclude entity = false.

(** The exception the filter raises on an entity it cannot handle:
    [AttributeError] when the entity has no [get] method, [TypeError] when
    its identifier cannot be hashed. *)
Definition filter_error (entity : pyval) : exn :=
  match entity with
  | PDict _ => TypeError
  | _ => AttributeError
  end.

(** The three kinds of call, as tests on the log. *)
Definition is_blueprints_request (c : call) : bool :=
  match c with CallGetBlueprints => true | _ => false end.

Definition is_entities_request (c : call) : bool :=
  match c with CallGetEntities _ _ => true | _ => false end.

Definition is_entity_request (c : call) : bool :=
  match c with CallGetEntity _ _ _ => true | _ => false end.

(** How many calls of a log pass a test. *)
Definition count_calls (test : call → bool) (log : list call) : nat :=
  length (filter (λ c, test c = true) log).

(** The lookups of named-entities mode that find an entity. *)
Definition successful_lookups (srv : catalog) (include_calculated : bool)
    (pairs : list (string * string)) : list (string * string) :=
  filter (λ pair, truthy (entity_lookup srv pair.1 pair.2 include_calculated) = true)
    pairs.

(** The fixed columns that copy a field of the entity, with the field each
    one copies. *)
Definition copied_fields : list (string * string) :=
  [("entity_id", "identifier"); ("title", "title"); ("created_at", "createdAt");
   ("updated_at", "updatedAt"); ("created_by", "createdBy");
   ("updated_by", "updatedBy")].

(** The value an entity holds under a field, the empty string when it has
    none. *)
Definition field_or_empty (key : string) (entity : pyval) : pyval :=
  match entity with
  | PDict fields => default (PStr EmptyString) (dict_get key fields)
  | _ => PStr EmptyString
  end.

(** The mapping an entity holds under [properties] or [relations], empty
    when it has none. *)
Definition mapping_under (key : string) (entity : pyval) : dict pyval :=
  match entity with
  | PDict fields =>
      match dict_get key fields with
      | Some (PDict m) => m
      | _ => []
      end
  | _ => []
  end.

(** A response to the authentication request that grants [token]: no
    error status, a body that is a mapping, and a truthy value under
    ['accessToken']. *)
Definition grants (outcome : http_outcome) (token : pyval) : Prop :=
  ∃ status fields,
    outcome = Response status (Some (PDict fields))
    ∧ ¬ (400 ≤ status < 600)%Z
    ∧ dict_get "accessToken" fields = Some token
    ∧ truthy token = true.

(** The values [len] accepts. *)
Definition sized (v : pyval) : bool :=
  match v with
  | PList _ | PDict _ | PStr _ => true
  | _ => false
  end.

(** A response to a listing request that carries [v] under [field]: no
    error status, a body that is a mapping, and under [field] a value that
    has a length. *)
Definition serves (outcome : http_outcome) (field : string) (v : pyval) : Prop :=
  ∃ status fields,
    outcome = Response status (Some (PDict fields))
    ∧ ¬ (400 ≤ status < 600)%Z
    ∧ dict_get field fields = Some v
    ∧ sized v = true.

(** A run of [n] slashes. *)
Fixpoint slashes (n : nat) : string :=
  match n with
  | O => EmptyString
  | S n' => String "/"%char (slashes n')
  end.

(** [','.join(items)] *)
Fixpoint join_commas (items : list string) : string :=
  match items with
  | [] => EmptyString
  | [item] => item
  | item :: rest => item +:+ "," +:+ join_commas rest
  end.

Fixpoint has_comma (s : string) : bool :=
  match s with
  | EmptyString => false
  | String c rest => Ascii.eqb c ","%char || has_comma rest
  end.

(** An item of a comma-separated list that parsing leaves as it is. *)
Definition clean_item (py_strip : string → string) (item : string) : Prop :=
  has_comma item = false ∧ py_strip item = item ∧ item ≠ EmptyString.

(** The document [save_entities] writes for an export result in the two
    document formats; for CSV the content is a table, or no file at all. *)
Definition document (format : output_format) (entities : export_result)
    : option file_content :=
  match format with
  | FormatJson => Some (JsonDocument entities)
  | FormatYaml => Some (YamlDocument entities)
  | FormatCsv => None
  end.

(** Both credentials are given and exactly one of [--all], [--blueprints]
    and [--entities]. *)
Definition valid_arguments (args : arguments) : Prop :=
  given (arg_client_id args) = true
  ∧ given (arg_client_secret args) = true
  ∧ sum_list (Nat.b2n <$> [arg_export_all args; given (arg_blueprints args);
                           given (arg_entities args)]) = 1%nat.

(** The payload [main]'s exporter authenticates with. *)
Definition credentials_payload (args : arguments) : pyval :=
  PDict [("clientId", PStr (default EmptyString (arg_client_id args)));
         ("clientSecret", PStr (default EmptyString (arg_client_secret args)))].

(** The service as [main]'s exporter sees it: at the base address of the
    command line, without its trailing slashes. *)
Definition main_service (port : catalog) (args : arguments) : catalog :=
  service_at port (rstrip_slash (arg_base_url args)).

(** The file system after a document for [entities] has been saved under
    [path]; for CSV, which writes nothing when there is no row, the case of
    an empty export only. *)
Definition with_empty_export (format : output_format) (path : string)
    (fs : filesystem) : filesystem :=
  match format with
  | FormatJson => <[path := JsonDocument []]> fs
  | FormatYaml => <[path := YamlDocument []]> fs
  | FormatCsv => fs
  end.

Section Courses.
Variable py_strip : string → string.
Variable py_str : pyval → string.
Variable requests_post : string → pyval → http_outcome.
Variable port : catalog.

(** The ways a run of [main] can go: the arguments are rejected, the
    credentials are refused, the export raises, saving raises, or the
    export is saved. *)
Inductive main_course (args : arguments) (fs : filesystem) (r : run) : Prop :=
| RejectedArguments :
    ¬ valid_arguments args →
    failed r = Some MissingCredentials ∨ failed r = Some NotExactlyOneOption →
    (failed r = Some MissingCredentials
     ↔ given (arg_client_id args) = false ∨ given (arg_client_secret args) = false) →
    posts r = [] → requests r = [] → files r = fs →
    main_course args fs r
| RefusedCredentials :
    valid_arguments args →
    (∀ token, ¬ grants (requests_post auth_url (credentials_payload args)) token) →
    failed r = Some AuthenticationFailed →
    posts r = [(auth_url, credentials_payload args)] →
    requests r = [] → files r = fs →
    main_course args fs r
| ExportRaised (option : export_option) (e : exn) :
    valid_arguments args →
    (∃ token, grants (requests_post auth_url (credentials_payload args)) token) →
    chosen_option py_strip args = Some option →
    main_export (main_service port args) option
      (parse_exclude py_strip (arg_exclude args)) (arg_include_calculated args) []
    = (Raise e, requests r) →
    failed r = Some (ExportFailed (Raised e)) →
    posts r = [(auth_url, credentials_payload args)] →
    files r = fs →
    main_course args fs r
| SaveRaised (option : export_option) (exported : export_result) (e : exn) :
    valid_arguments args →
    (∃ token, grants (requests_post auth_url (credentials_payload args)) token) →
    chosen_option py_strip args = Some option →
    main_export (main_service port args) option
      (parse_exclude py_strip (arg_exclude args)) (arg_include_calculated args) []
    = (Return exported, requests r) →
    save_entities py_str exported (output_file (arg_output args) (arg_format args))
      (format_name (arg_format args)) fs
    = (Raise e, fs) →
    failed r = Some (ExportFailed (Raised e)) →
    posts r = [(auth_url, credentials_payload args)] →
    files r = fs →
    main_course args fs r
| Saved (option : export_option) (exported : export_result) :
    valid_arguments args →
    (∃ token, grants (requests_post auth_url (credentials_payload args)) token) →
    chosen_option py_strip args = Some option →
    main_export (main_service port args) option
      (parse_exclude py_strip (arg_exclude args)) (arg_include_calculated args) []
    = (Return exported, requests r) →
    save_entities py_str exported (output_file (arg_output args) (arg_format args))
      (format_name (arg_format args)) fs
    = (Return tt, files r) →
    failed r = None →
    posts r = [(auth_url, credentials_payload args)] →
    main_course args fs r.
End Courses.

End Behaviour.
Export Behaviour.

(** ** Sample command lines *)

Module RunSamples.

(** An authentication service that grants the token [t] to everyone, and
    one that answers every request with status 401. *)
Definition granting_post (url : string) (payload : pyval) : http_outcome :=
  Response 200 (Some (PDict [("accessToken", PStr "t")])).


(** [--all --exclude b --output out], with credentials. *)
Definition all_but_b : arguments := {|
  arg_export_all := true;
  arg_blueprints := None;
  arg_entities := None;
  arg_exclude := Some "b";
  arg_output := "out";
  arg_format := FormatJson;
  arg_include_calculated := true;
  arg_client_id := Some "id";
  arg_client_secret := Some "secret";
  arg_base_url := "https://api.getport.io/v1/";
  arg_verbose := false
|}.


(** [--blueprints , --format yaml]: a list that holds a separator only. *)
Definition only_a_separator : arguments := {|
  arg_export_all := false;
  arg_blueprints := Some ",";
  arg_entities := None;
  arg_exclude := None;
  arg_output := "out.yaml";
  arg_format := FormatYaml;
  arg_include_calculated := true;
  arg_client_id := Some "id";
  arg_client_secret := Some "secret";
  arg_base_url := "https://api.getport.io/v1";
  arg_verbose := false
|}.

End RunSamples.
Export RunSamples.


(** * Properties *)

(** ** Running the monads *)

(** Unfolding of the two monads, [result] and [client]. *)
Ltac run_result := cbv [mbind result_bind mret result_ret]; cbn beta iota.
Ltac run_client :=
  cbv [mbind client_bind mret client_ret lift record_call]; cbn beta iota.

(** ** The serializer *)

Lemma flatten_no_entities (py_str : pyval → string) (entities : export_result) :
  total_entities entities = 0 → flatten py_str entities = Return [].
Proof.
  unfold flatten, total_entities, dict_values.
  generalize (@nil (dict pyval)) as acc.
  induction entities as [|[blueprint_id blueprint_entities] entities IH];
    intros acc Hzero; simpl in *; [done|].
  destruct blueprint_entities as [|entity rest]; simpl in *; [|lia].
  apply IH. done.
Qed.

(** ** Dictionaries *)

Section DictFacts.
Context {V : Type}.
Implicit Types (d : dict V) (k : string) (v : V).

Lemma dict_get_set_eq k v d : dict_get k (dict_set k v d) = Some v.
Proof.
  induction d as [|[k' v'] d IH]; simpl.
  - by rewrite String.eqb_refl.
  - destruct (String.eqb k' k) eqn:Hk; simpl; rewrite Hk; [done|apply IH].
Qed.

Lemma dict_get_set_ne k k' v d : k ≠ k' → dict_get k' (dict_set k v d) = dict_get k' d.
Proof.
  intros Hne. induction d as [|[k0 v0] d IH]; simpl.
  - by apply String.eqb_neq in Hne as ->.
  - destruct (String.eqb k0 k) eqn:Hk; simpl; [|by rewrite IH].
    apply String.eqb_eq in Hk as ->. by apply String.eqb_neq in Hne as ->.
Qed.

Lemma dict_get_set k k' v d :
  dict_get k' (dict_set k v d) = if decide (k = k') then Some v else dict_get k' d.
Proof.
  destruct (decide (k = k')) as [->|Hne];
    [apply dict_get_set_eq|by apply dict_get_set_ne].
Qed.

Lemma dict_get_Some_elem_of k v d : dict_get k d = Some v → (k, v) ∈ d.
Proof.
  induction d as [|[k' v'] d IH]; simpl; [done|].
  destruct (String.eqb k' k) eqn:Hk.
  - apply String.eqb_eq in Hk as ->. intros [= ->]. left.
  - intros Hget. right. by apply IH.
Qed.

(** Assigning a value that satisfies [P] keeps every value in [P]. *)
Lemma dict_set_Forall (P : V → Prop) k v d :
  P v → Forall (λ item, P item.2) d → Forall (λ item, P item.2) (dict_set k v d).
Proof.
  intros Hv. induction 1 as [|[k' v'] d Hhd Htl IH]; simpl.
  - by repeat constructor.
  - destruct (String.eqb k' k); constructor; auto.
Qed.
End DictFacts.

(** ** The catalog client *)

Section ClientFacts.
Variable srv : catalog.

Lemma get_entity_run blueprint_id entity_id include_calculated log :
  get_entity srv blueprint_id entity_id include_calculated log
  = (Return (entity_lookup srv blueprint_id entity_id include_calculated),
     log ++ [CallGetEntity blueprint_id entity_id include_calculated]).
Proof.
  unfold get_entity, entity_lookup. run_client.
  destruct (get_entity_try _ _ _ _) as [entity|e]; [done|].
  by destruct (is_request_exception e).
Qed.
End ClientFacts.

(** ** The exclusion filter *)

Section FilterFacts.
Variable exclude : gset string.

Lemma py_in_hashable (v : pyval) :
  hashable v = true →
  py_in v exclude
  = Return (match v with PStr x => bool_decide (x ∈ exclude) | _ => false end).
Proof. by destruct v. Qed.

Lemma filter_excluded_body_listed (acc : list pyval) (entity : pyval) :
  listed_entity entity →
  filter_excluded_body exclude acc entity
  = Return (if decide (truthy (identifier_of entity) = true
                       ∧ is_excluded exclude entity = false)
            then acc ++ [entity] else acc).
Proof.
  intros [[fields ->] Hhash]. unfold filter_excluded_body, is_excluded.
  change (py_get (PDict fields) "identifier" PNone)
    with (Return (identifier_of (PDict fields))).
  set (entity_id := identifier_of (PDict fields)) in *.
  cbn [mbind result_bind].
  destruct (truthy entity_id); rewrite !(py_in_hashable _ Hhash);
    cbn [mbind result_bind].
  - destruct (match entity_id with PStr x => bool_decide (x ∈ exclude) | _ => false end);
      cbn [negb mbind result_bind mret result_ret].
    + by rewrite decide_False by (intros [_ ?]; congruence).
    + by rewrite decide_True.
  - by rewrite decide_False by (intros [? _]; congruence).
Qed.

Lemma filter_excluded_from (entities acc : list pyval) :
  Forall listed_entity entities →
  for_each entities acc (filter_excluded_body exclude)
  = Return (acc ++ kept_entities exclude entities).
Proof.
  intros Hok. revert acc.
  induction Hok as [|entity entities Hentity _ IH]; intros acc.
  { simpl. by rewrite app_nil_r. }
  unfold kept_entities. rewrite filter_cons. fold (kept_entities exclude entities).
  cbn [for_each]. rewrite (filter_excluded_body_listed _ _ Hentity).
  cbn [mbind result_bind]. rewrite IH.
  destruct (decide _); [by rewrite <- app_assoc|done].
Qed.

Lemma filter_excluded_listed (entities : list pyval) :
  Forall listed_entity entities →
  filter_excluded exclude entities = Return (kept_entities exclude entities).
Proof. intros Hok. unfold filter_excluded. by rewrite filter_excluded_from. Qed.

End FilterFacts.

(** ** All-entities and named-collections modes *)

Section ListingModes.
Variable srv : catalog.
Variable exclude : gset string.
Variable include_calculated : bool.

Let listing (blueprint_id : string) : list pyval :=
  entities_listing srv blueprint_id include_calculated.

Lemma export_blueprint_run (exported : export_result) (blueprint_id : string)
    (log : list call) :
  export_blueprint srv exclude include_calculated exported blueprint_id log
  = (filtered ← filter_excluded exclude (listing blueprint_id);
     mret (if bool_decide (filtered = []) then exported
           else dict_set blueprint_id filtered exported),
     log ++ [CallGetEntities blueprint_id include_calculated]).
Proof.
  unfold export_blueprint, get_entities_for_blueprint, listing. run_client.
  destruct (filter_excluded _ _) as [filtered|e]; run_result; [|done].
  by destruct (bool_decide _).
Qed.

Lemma blueprint_ids_of_cons (b : blueprint) (blueprints : list blueprint) :
  blueprint_ids_of (b :: blueprints)
  = match bp_identifier b with
    | Some blueprint_id =>
        if String.eqb blueprint_id EmptyString then blueprint_ids_of blueprints
        else blueprint_id :: blueprint_ids_of blueprints
    | None => blueprint_ids_of blueprints
    end.
Proof.
  unfold blueprint_ids_of. simpl.
  destruct (bp_identifier b) as [blueprint_id|]; [|done].
  by destruct (String.eqb blueprint_id EmptyString).
Qed.

(** All-entities mode is named-collections mode over the identifiers of the
    listed blueprints, after the one call that lists them. *)
Lemma export_all_entities_run (exclude_entities : option (gset string))
    (log : list call) :
  export_all_entities srv exclude_entities include_calculated log
  = export_blueprint_entities srv (blueprint_ids_of (blueprints_listing srv))
      exclude_entities include_calculated (log ++ [CallGetBlueprints]).
Proof.
  unfold export_all_entities, export_blueprint_entities, get_blueprints. run_client.
  generalize (log ++ [CallGetBlueprints]) as log'.
  destruct (blueprints_listing srv) as [|blueprint blueprints] eqn:Hlisting; [done|].
  rewrite bool_decide_eq_false_2 by done. clear Hlisting.
  generalize (@nil (string * list pyval)) as exported.
  generalize (blueprint :: blueprints) as bs. clear blueprint blueprints.
  induction bs as [|[[blueprint_id|] fields] bs IH]; intros exported log';
    [done|rewrite blueprint_ids_of_cons..]; cbn [for_each bp_identifier].
  - destruct (String.eqb blueprint_id EmptyString); run_client; [apply IH|].
    cbn [for_each]. run_client.
    destruct (export_blueprint _ _ _ _ _ _) as [[exported'|e] log'']; [apply IH|done].
  - run_client. apply IH.
Qed.

Lemma export_blueprint_entities_from (blueprint_ids : list string)
    (exported : export_result) (log : list call) :
  (∀ c, c ∈ blueprint_ids → Forall listed_entity (listing c)) →
  for_each blueprint_ids exported (export_blueprint srv exclude include_calculated) log
  = (Return (foldl (record_kept srv exclude include_calculated)
               exported blueprint_ids),
     log ++ ((λ c, CallGetEntities c include_calculated) <$> blueprint_ids)).
Proof.
  revert exported log.
  induction blueprint_ids as [|c ids IH]; intros exported log Hok; cbn [for_each].
  { cbn. by rewrite app_nil_r. }
  run_client. rewrite export_blueprint_run.
  rewrite filter_excluded_listed by (apply Hok; set_solver).
  run_result. rewrite IH by (intros c' Hc'; apply Hok; set_solver).
  rewrite fmap_cons, <- app_assoc. cbn [foldl app].
  replace (record_kept srv exclude include_calculated exported c)
    with (if bool_decide (kept_entities exclude (listing c) = []) then exported
          else dict_set c (kept_entities exclude (listing c)) exported); [done|].
  unfold record_kept, unless_empty, listing. by destruct (bool_decide _).
Qed.
Lemma lookup_record_kept (blueprint_ids : list string) (exported : export_result)
    (c : string) :
  dict_get c (foldl (record_kept srv exclude include_calculated)
                exported blueprint_ids)
  = if decide (c ∈ blueprint_ids)
    then match unless_empty (kept_entities exclude (listing c)) with
         | Some kept => Some kept
         | None => dict_get c exported
         end
    else dict_get c exported.
Proof.
  revert exported. induction blueprint_ids as [|c0 ids IH]; intros exported.
  { by rewrite decide_False by apply not_elem_of_nil. }
  cbn [foldl]. rewrite IH.
  assert (dict_get c (record_kept srv exclude include_calculated exported c0)
          = if decide (c0 = c)
            then match unless_empty (kept_entities exclude (listing c)) with
                 | Some kept => Some kept
                 | None => dict_get c exported
                 end
            else dict_get c exported) as ->.
  { unfold record_kept. fold (listing c0). destruct (decide (c0 = c)) as [->|Hne].
    - destruct (unless_empty _); [apply dict_get_set_eq|done].
    - destruct (unless_empty (kept_entities exclude (listing c0)));
        [by apply dict_get_set_ne|done]. }
  destruct (decide (c ∈ ids)) as [Hin|Hnotin].
  - rewrite (decide_True (P:=c ∈ c0 :: ids)) by set_solver.
    destruct (unless_empty _); [done|]. by destruct (decide (c0 = c)).
  - destruct (decide (c0 = c)) as [->|Hne].
    + by rewrite (decide_True (P:=c ∈ c :: ids)) by set_solver.
    + rewrite (decide_False (P:=c ∈ c0 :: ids)); [done|].
      intros [?|?]%elem_of_cons; congruence.
Qed.

(** Named-collections mode on well-formed listings: the run, and what the
    result holds for every blueprint. *)
Lemma export_blueprint_entities_listed (blueprint_ids : list string)
    (log : list call) :
  (∀ c, c ∈ blueprint_ids → Forall listed_entity (listing c)) →
  ∃ exported,
    export_blueprint_entities srv blueprint_ids (Some exclude) include_calculated log
    = (Return exported,
       log ++ ((λ c, CallGetEntities c include_calculated) <$> blueprint_ids))
    ∧ ∀ c, dict_get c exported
           = if decide (c ∈ blueprint_ids)
             then unless_empty (kept_entities exclude (listing c)) else None.
Proof.
  intros Hok. eexists. split.
  { unfold export_blueprint_entities, or_empty_set. cbn [default].
    by apply export_blueprint_entities_from. }
  intros c. rewrite lookup_record_kept. destruct (decide _); [|done].
  by destruct (unless_empty _).
Qed.
End ListingModes.

(** ** Loop invariants of client computations *)

Lemma for_each_client_invariant {A S : Type} (P : S → Prop)
    (body : S → A → client S) (xs : list A) :
  (∀ s x log s' log', x ∈ xs → P s → body s x log = (Return s', log') → P s') →
  ∀ s log s' log', P s → for_each xs s body log = (Return s', log') → P s'.
Proof.
  induction xs as [|x xs IH]; intros Hbody s log s' log' Hs; cbn [for_each].
  { run_client. by intros [= <- _]. }
  run_client. destruct (body s x log) as [[s1|e] log1] eqn:Hstep; [|done].
  apply IH; [|by eapply Hbody; [left|..]].
  intros s2 y log2 s3 log3 Hy. apply Hbody. by right.
Qed.

(** ** No export mode maps a blueprint to an empty list *)

Section NoEmptyEntry.
Variable srv : catalog.
Variable include_calculated : bool.

Lemma all_nonempty_lookup (exported : export_result) (c : string) :
  all_nonempty exported → dict_get c exported ≠ Some [].
Proof.
  intros Hall Hget%dict_get_Some_elem_of.
  by apply (proj1 (Forall_forall _ _) Hall) in Hget.
Qed.

Lemma export_blueprint_invariant (exclude : gset string)
    (exported exported' : export_result) (c : string) (log log' : list call) :
  export_blueprint srv exclude include_calculated exported c log
    = (Return exported', log') →
  all_nonempty exported ∧ holds_filtered srv include_calculated exclude exported →
  all_nonempty exported' ∧ holds_filtered srv include_calculated exclude exported'.
Proof.
  rewrite export_blueprint_run. intros Hrun [Hall Hheld].
  destruct (filter_excluded _ _) as [filtered|e] eqn:Hfilter; [|done].
  revert Hrun. run_result. intros [= <- _].
  case_bool_decide as Hempty; [done|]. split.
  - by apply (dict_set_Forall (λ l, l ≠ [])).
  - intros c' l. rewrite dict_get_set. destruct (decide (c = c')) as [<-|_]; [|apply Hheld].
    by intros [= <-].
Qed.

Lemma export_blueprint_entities_invariant (exclude : gset string)
    (blueprint_ids : list string) (exported : export_result) (log log' : list call) :
  export_blueprint_entities srv blueprint_ids (Some exclude) include_calculated log
    = (Return exported, log') →
  all_nonempty exported ∧ holds_filtered srv include_calculated exclude exported.
Proof.
  unfold export_blueprint_entities, or_empty_set. cbn [default].
  apply (for_each_client_invariant
           (λ d, all_nonempty d ∧ holds_filtered srv include_calculated exclude d)).
  - intros d c log1 d' log1' _ Hd Hstep. by eapply export_blueprint_invariant.
  - split; [constructor|]. by intros c l.
Qed.

Lemma append_entity_nonempty (exported : export_result) (c : string) (entity : pyval) :
  all_nonempty exported → all_nonempty (append_entity c entity exported).
Proof.
  intros Hall. unfold append_entity.
  destruct (negb (dict_mem c exported)).
  - set (d := dict_set c [] exported).
    assert (dict_set c (default [] (dict_get c d) ++ [entity]) d
            = dict_set c (default [] (dict_get c d) ++ [entity]) exported) as ->.
    { subst d. generalize (default [] (dict_get c (dict_set c [] exported)) ++ [entity]).
      intros v. induction exported as [|[k w] exported IH]; simpl.
      - by rewrite String.eqb_refl.
      - destruct (String.eqb k c) eqn:Hk; simpl; rewrite Hk; [done|].
        f_equal. apply IH. by inversion Hall. }
    apply (dict_set_Forall (λ l, l ≠ [])); [|done]. by intros [_ ?]%app_eq_nil.
  - apply (dict_set_Forall (λ l, l ≠ [])); [|done]. by intros [_ ?]%app_eq_nil.
Qed.

End NoEmptyEntry.

(** ** Loops that never raise *)

Lemma for_each_client_fold {A S : Type} (body : S → A → client S)
    (step : S → A → S) (calls : A → list call) (xs : list A) :
  (∀ s x log, x ∈ xs → body s x log = (Return (step s x), log ++ calls x)) →
  ∀ s log, for_each xs s body log
           = (Return (foldl step s xs), log ++ (xs ≫= calls)).
Proof.
  induction xs as [|x xs IH]; intros Hbody s log; cbn [for_each].
  { run_client. by rewrite app_nil_r. }
  run_client. rewrite Hbody by left.
  rewrite IH by (intros s' y log' Hy; apply Hbody; by right).
  by rewrite <- app_assoc.
Qed.

(** ** Splitting a spec at its first colon *)

Lemma split_colon_once_explicit (spec : string) :
  has_colon spec = true →
  split_colon_once spec = [before_colon spec; after_colon spec].
Proof.
  induction spec as [|c rest IH]; cbn; [done|].
  destruct (Ascii.eqb c ":"); [done|]. cbn. intros Hrest. by rewrite IH.
Qed.

Lemma before_after_colon (blueprint_id rest : string) :
  has_colon blueprint_id = false →
  has_colon (blueprint_id +:+ ":" +:+ rest) = true
  ∧ before_colon (blueprint_id +:+ ":" +:+ rest) = blueprint_id
  ∧ after_colon (blueprint_id +:+ ":" +:+ rest) = rest.
Proof.
  induction blueprint_id as [|c blueprint_id IH]; [done|].
  change (String c blueprint_id +:+ ":" +:+ rest)
    with (String c (blueprint_id +:+ ":" +:+ rest)).
  cbn [has_colon before_colon after_colon].
  destruct (Ascii.eqb c ":"); [done|]. cbn [orb]. intros Hno.
  destruct (IH Hno) as (-> & -> & ->). done.
Qed.

(** ** Named-entities mode *)

Section NamedEntities.
Variable srv : catalog.
Variable include_calculated : bool.

Lemma export_entity_run (exported : export_result) (c e : string) (log : list call) :
  export_entity srv include_calculated exported c e log
  = (Return (record_lookup srv include_calculated exported (c, e)),
     log ++ [lookup_call include_calculated (c, e)]).
Proof.
  unfold export_entity, record_lookup, lookup_call. run_client.
  rewrite get_entity_run. cbn [fst snd]. by destruct (truthy _).
Qed.

Lemma bind_singleton_calls {A : Type} (f : A → call) (xs : list A) :
  xs ≫= (λ x, [f x]) = f <$> xs.
Proof. induction xs as [|x xs IH]; [done|]. cbn. by rewrite <- IH. Qed.

Lemma pair_with_each (c : string) (bare : list string) :
  list_bind _ _ (λ e, [(c, e)]) bare = (λ e, (c, e)) <$> bare.
Proof. induction bare as [|e bare IH]; [done|]. cbn. by rewrite <- IH. Qed.

Lemma explicit_loop_run (explicit : list string) (found : export_result)
    (log : list call) :
  Forall (λ spec, has_colon spec = true) explicit →
  for_each explicit found (λ specific_entities spec,
    '(blueprint_id, entity_id) ← lift (unpack_pair (split_colon_once spec));
    export_entity srv include_calculated specific_entities blueprint_id entity_id) log
  = (Return (foldl (record_lookup srv include_calculated) found
               ((λ spec, (before_colon spec, after_colon spec)) <$> explicit)),
     log ++ (lookup_call include_calculated
               <$> ((λ spec, (before_colon spec, after_colon spec)) <$> explicit))).
Proof.
  intros Hexplicit.
  rewrite <- bind_singleton_calls, list_fmap_bind, foldl_fmap.
  apply (for_each_client_fold _
           (λ d spec, record_lookup srv include_calculated d
                        (before_colon spec, after_colon spec))).
  intros d spec l Hspec. run_client.
  rewrite split_colon_once_explicit
    by exact (proj1 (Forall_forall _ _) Hexplicit _ Hspec).
  cbn [unpack_pair]. apply export_entity_run.
Qed.

Lemma bare_loop_run (blueprints : list blueprint) (bare : list string)
    (found : export_result) (log : list call) :
  for_each blueprints found (λ specific_entities blueprint,
    match bp_identifier blueprint with
    | None => mret specific_entities
    | Some blueprint_id =>
        if String.eqb blueprint_id EmptyString then mret specific_entities
        else
          for_each bare specific_entities (λ specific_entities entity_id,
            export_entity srv include_calculated specific_entities
              blueprint_id entity_id)
    end) log
  = (Return (foldl (record_lookup srv include_calculated) found
               (c ← blueprint_ids_of blueprints; e ← bare; [(c, e)])),
     log ++ (lookup_call include_calculated
               <$> (c ← blueprint_ids_of blueprints; e ← bare; [(c, e)]))).
Proof.
  revert found log.
  induction blueprints as [|[[c|] fields] bs IH]; intros found log;
    [cbn; run_client; by rewrite app_nil_r|rewrite blueprint_ids_of_cons..];
    cbn [for_each bp_identifier].
  - destruct (String.eqb c EmptyString); run_client; [apply IH|].
    cbn [for_each]. run_client.
    rewrite (for_each_client_fold _
               (λ d e, record_lookup srv include_calculated d (c, e))
               (λ e, [lookup_call include_calculated (c, e)]))
      by (intros; apply export_entity_run).
    rewrite IH. rewrite bind_cons, foldl_app, fmap_app, app_assoc.
    f_equal; [f_equal|f_equal].
    + rewrite (pair_with_each c bare). by rewrite foldl_fmap.
    + rewrite (pair_with_each c bare). change (list_bind _ _ ?f ?l) with (l ≫= f).
      by rewrite bind_singleton_calls, <- list_fmap_compose.
  - run_client. apply IH.
Qed.

(** The run of named-entities mode: it never raises, the explicit lookups
    come first, and the bare identifiers are looked up only after the one
    call that lists the blueprints. *)
Lemma export_specific_entities_run (entity_specs : list string) (log : list call) :
  export_specific_entities srv entity_specs include_calculated log
  = (Return (foldl (record_lookup srv include_calculated) []
               (explicit_lookups entity_specs ++ bare_lookups srv entity_specs)),
     log ++ (lookup_call include_calculated <$> explicit_lookups entity_specs)
         ++ (if bool_decide (filter (λ spec, has_colon spec = false) entity_specs = [])
             then []
             else CallGetBlueprints
                  :: (lookup_call include_calculated
                        <$> bare_lookups srv entity_specs))).
Proof.
  unfold export_specific_entities, explicit_lookups, bare_lookups.
  set (bare := filter (λ spec, has_colon spec = false) entity_specs).
  rewrite foldl_app. unfold mbind at 1, client_bind.
  rewrite explicit_loop_run
    by (apply Forall_forall; by intros spec [? _]%list_elem_of_filter).
  destruct (bool_decide (bare = [])) eqn:Hbare.
  { apply bool_decide_eq_true in Hbare. rewrite Hbare. run_client.
    rewrite app_nil_r. do 2 f_equal.
    induction (blueprint_ids_of (blueprints_listing srv)) as [|c cs IH]; [done|].
    by cbn. }
  unfold get_blueprints at 1. unfold mbind at 1, client_bind.
  unfold mbind at 1, client_bind. unfold record_call at 1. unfold mret at 1, client_ret.
  rewrite bare_loop_run. by rewrite <- !app_assoc.
Qed.
End NamedEntities.

(** ** What named-entities mode records under a blueprint *)

Section NamedLookups.
Variable srv : catalog.
Variable include_calculated : bool.

Lemma dict_mem_false {V : Type} (k : string) (d : dict V) :
  dict_mem k d = false ↔ dict_get k d = None.
Proof.
  unfold dict_mem. rewrite bool_decide_eq_false, <- eq_None_not_Some. done.
Qed.

Lemma append_entity_get_eq (exported : export_result) (c : string) (entity : pyval) :
  dict_get c (append_entity c entity exported)
  = Some (default [] (dict_get c exported) ++ [entity]).
Proof.
  unfold append_entity. destruct (dict_mem c exported) eqn:Hmem; cbn [negb].
  - apply dict_get_set_eq.
  - apply dict_mem_false in Hmem. by rewrite !dict_get_set_eq, Hmem.
Qed.

Lemma append_entity_get_ne (exported : export_result) (c c' : string) (entity : pyval) :
  c ≠ c' → dict_get c' (append_entity c entity exported) = dict_get c' exported.
Proof.
  intros Hne. unfold append_entity.
  destruct (negb (dict_mem c exported)); by rewrite !dict_get_set_ne.
Qed.

Lemma hits_under_cons (c : string) (pair : string * string)
    (pairs : list (string * string)) :
  hits_under srv include_calculated c (pair :: pairs)
  = (if decide (pair.1 = c
                ∧ truthy (entity_lookup srv pair.1 pair.2 include_calculated) = true)
     then [entity_lookup srv pair.1 pair.2 include_calculated] else [])
    ++ hits_under srv include_calculated c pairs.
Proof. unfold hits_under. rewrite filter_cons. by destruct (decide _). Qed.

Lemma lookup_record_lookups (c : string) (pairs : list (string * string))
    (exported : export_result) :
  dict_get c (foldl (record_lookup srv include_calculated) exported pairs)
  = match dict_get c exported with
    | Some l => Some (l ++ hits_under srv include_calculated c pairs)
    | None => unless_empty (hits_under srv include_calculated c pairs)
    end.
Proof.
  revert exported. induction pairs as [|[c0 e0] pairs IH]; intros exported.
  { cbn. destruct (dict_get c exported); [by rewrite app_nil_r|done]. }
  cbn [foldl]. rewrite IH, hits_under_cons. unfold record_lookup. cbn [fst snd].
  destruct (truthy (entity_lookup srv c0 e0 include_calculated)) eqn:Hhit.
  - destruct (decide (c0 = c)) as [->|Hne].
    + rewrite append_entity_get_eq, decide_True by done.
      destruct (dict_get c exported) as [l|]; cbn [default].
      * by rewrite <- app_assoc.
      * unfold unless_empty. by rewrite bool_decide_eq_false_2.
    + rewrite append_entity_get_ne by done.
      by rewrite decide_False by (intros [? _]; done).
  - by rewrite decide_False by (intros [_ ?]; done).
Qed.

Lemma elem_of_hits_under (c e : string) (pairs : list (string * string)) :
  (c, e) ∈ pairs →
  truthy (entity_lookup srv c e include_calculated) = true →
  entity_lookup srv c e include_calculated ∈ hits_under srv include_calculated c pairs.
Proof.
  intros Hin Hhit. unfold hits_under.
  apply (list_elem_of_fmap_2
           (λ pair, entity_lookup srv pair.1 pair.2 include_calculated) _ (c, e)).
  by apply list_elem_of_filter.
Qed.

Lemma foldl_record_lookup_nonempty (pairs : list (string * string))
    (exported : export_result) :
  all_nonempty exported →
  all_nonempty (foldl (record_lookup srv include_calculated) exported pairs).
Proof.
  revert exported. induction pairs as [|pair pairs IH]; intros exported Hall; [done|].
  cbn [foldl]. apply IH. unfold record_lookup.
  destruct (truthy _); [by apply append_entity_nonempty|done].
Qed.

Lemma elem_of_explicit_lookups (entity_specs : list string) (spec : string) :
  spec ∈ entity_specs → has_colon spec = true →
  (before_colon spec, after_colon spec) ∈ explicit_lookups entity_specs.
Proof.
  intros Hin Hcolon. unfold explicit_lookups.
  apply (list_elem_of_fmap_2 (λ spec, (before_colon spec, after_colon spec))).
  by apply list_elem_of_filter.
Qed.

Lemma elem_of_blueprint_ids_of (blueprints : list blueprint) (b : blueprint)
    (c : string) :
  b ∈ blueprints → bp_identifier b = Some c → c ≠ EmptyString →
  c ∈ blueprint_ids_of blueprints.
Proof.
  intros Hin Hid Hne. unfold blueprint_ids_of. apply list_elem_of_omap.
  exists b. split; [done|]. rewrite Hid.
  by apply String.eqb_neq in Hne as ->.
Qed.

Lemma elem_of_bare_lookups (entity_specs : list string) (c e : string) :
  c ∈ blueprint_ids_of (blueprints_listing srv) →
  e ∈ entity_specs → has_colon e = false →
  (c, e) ∈ bare_lookups srv entity_specs.
Proof.
  intros Hc He Hbare. unfold bare_lookups.
  apply list_elem_of_bind. exists c. split; [|done].
  apply list_elem_of_bind. exists e. split; [by left|].
  by apply list_elem_of_filter.
Qed.
End NamedLookups.

(** ** Fetching one entity *)

Lemma truthy_not_None (v : pyval) : truthy v = true → v ≠ PNone.
Proof. by intros Hv ->. Qed.

Lemma entity_lookup_None_iff (srv : catalog) (c e : string)
    (include_calculated : bool) :
  entity_lookup srv c e include_calculated = PNone
  ↔ lookup_failure
      (session_get srv (entity_url srv c e) (calculated_params include_calculated)).
Proof.
  unfold entity_lookup, get_entity_try.
  destruct (session_get _ _ _) as [|status_code json].
  { split; [intros _; apply transport_error|done]. }
  unfold raise_for_status. case_bool_decide as Hstatus; run_result.
  { split; [intros _; by apply error_status|done]. }
  destruct json as [data|]; cbn [response_json].
  2:{ split; [intros _; apply undecodable_body|done]. }
  destruct data as [| | | | |items|fields]; cbn [py_get];
    try (split; [intros _; by apply body_not_a_mapping|done]).
  destruct (truthy (default PNone (dict_get "entity" fields))) eqn:Hentity.
  - split; [by intros ?%truthy_not_None|].
    inversion 1 as [|? ? Hrange| |? ? Hdict|? ? Hfalse]; subst.
    + done.
    + by destruct (Hdict fields).
    + congruence.
  - split; [intros _; by apply entity_not_found|done].
Qed.

(** ** Flattened rows (C2) *)

Section DictKeys.
Context {V : Type}.
Implicit Types (d : dict V) (k c : string) (v : V).

Lemma dict_get_None_keys c d : dict_get c d = None ↔ c ∉ dict_keys d.
Proof.
  unfold dict_keys. induction d as [|[k v] d IH]; cbn.
  { split; [intros _; apply not_elem_of_nil|done]. }
  rewrite not_elem_of_cons. destruct (String.eqb k c) eqn:Hk.
  - apply String.eqb_eq in Hk as ->. split; [done|]. by intros [? _].
  - apply String.eqb_neq in Hk. rewrite IH. naive_solver.
Qed.

Lemma dict_keys_set c k v d :
  c ∈ dict_keys (dict_set k v d) ↔ c = k ∨ c ∈ dict_keys d.
Proof.
  unfold dict_keys. induction d as [|[k' v'] d IH]; cbn.
  { rewrite list_elem_of_singleton. split; [by left|].
    intros [?|?%elem_of_nil]; done. }
  destruct (String.eqb k' k) eqn:Hk; cbn; rewrite !elem_of_cons.
  - apply String.eqb_eq in Hk as ->. naive_solver.
  - rewrite IH. naive_solver.
Qed.
End DictKeys.

Section Flattening.
Variable py_str : pyval → string.

Lemma add_columns_keys (prefix : string) (items : list (string * pyval))
    (row : dict pyval) (c : string) :
  c ∈ dict_keys (add_columns py_str prefix items row)
  ↔ c ∈ dict_keys row ∨ c ∈ (λ k, prefix +:+ k) <$> dict_keys items.
Proof.
  unfold add_columns. revert row.
  induction items as [|[k v] items IH]; intros row; cbn [foldl].
  { cbn. rewrite elem_of_nil. naive_solver. }
  rewrite IH, dict_keys_set. unfold dict_keys. cbn. rewrite elem_of_cons.
  naive_solver.
Qed.

Lemma flatten_entity_columns (blueprint_id : string) (entity : pyval) :
  flattenable entity →
  ∃ row,
    flatten_entity py_str blueprint_id entity = Return row
    ∧ ∀ c, c ∈ dict_keys row ↔ c ∈ entity_columns entity.
Proof.
  intros (fields & -> & Hprops & Hrels).
  unfold flatten_entity, entity_columns, keys_under. cbn [py_get]. run_result.
  assert (∃ m, default (PDict []) (dict_get "properties" fields) = PDict m
               ∧ match dict_get "properties" fields with
                 | Some (PDict m') => dict_keys m'
                 | _ => []
                 end = dict_keys m) as (props & -> & ->).
  { destruct Hprops as [->|[m ->]]; by eexists. }
  assert (∃ m, default (PDict []) (dict_get "relations" fields) = PDict m
               ∧ match dict_get "relations" fields with
                 | Some (PDict m') => dict_keys m'
                 | _ => []
                 end = dict_keys m) as (rels & -> & ->).
  { destruct Hrels as [->|[m ->]]; by eexists. }
  cbn [py_items]. eexists. split; [done|]. intros c.
  rewrite !add_columns_keys, !elem_of_app. unfold fixed_columns, dict_keys. cbn.
  naive_solver.
Qed.

Lemma entity_row_columns (item : string * pyval) (c : string) :
  flattenable item.2 →
  c ∈ dict_keys (entity_row py_str item) ↔ c ∈ entity_columns item.2.
Proof.
  intros Hok. unfold entity_row.
  destruct (flatten_entity_columns item.1 item.2 Hok) as (row & -> & Hkeys).
  apply Hkeys.
Qed.

Lemma flatten_rows (entities : export_result) :
  Forall (λ item, flattenable item.2) (entity_rows entities) →
  flatten py_str entities = Return (entity_row py_str <$> entity_rows entities).
Proof.
  unfold flatten.
  enough (∀ acc,
    Forall (λ item, flattenable item.2) (entity_rows entities) →
    for_each entities acc (λ flattened_data item,
      for_each item.2 flattened_data (λ flattened_data entity,
        row ← flatten_entity py_str item.1 entity;
        mret (flattened_data ++ [row])))
    = Return (acc ++ (entity_row py_str <$> entity_rows entities))) as Hgen.
  { apply Hgen. }
  induction entities as [|[blueprint_id blueprint_entities] entities IH];
    intros acc Hok; cbn [for_each].
  { cbn. by rewrite app_nil_r. }
  unfold entity_rows in Hok. rewrite bind_cons in Hok.
  apply Forall_app in Hok as [Hhere Hrest]. cbn [fst snd] in *.
  assert (∀ acc',
    for_each blueprint_entities acc' (λ flattened_data entity,
      row ← flatten_entity py_str blueprint_id entity;
      mret (flattened_data ++ [row]))
    = Return (acc' ++ (entity_row py_str
                         <$> ((λ entity, (blueprint_id, entity))
                                <$> blueprint_entities)))) as ->.
  { clear IH Hrest. induction blueprint_entities as [|entity rest IHrest];
      intros acc'; cbn [for_each].
    { cbn. by rewrite app_nil_r. }
    apply Forall_cons in Hhere as [Hentity Hrest].
    destruct (flatten_entity_columns blueprint_id entity Hentity) as (row & Hrow & _).
    cbn [fmap list_fmap]. unfold entity_row at 1. cbn [fst snd].
    rewrite Hrow. run_result. rewrite IHrest by done. by rewrite <- app_assoc. }
  run_result. rewrite IH by done.
  unfold entity_rows. rewrite bind_cons, fmap_app. by rewrite <- app_assoc.
Qed.

Lemma collect_fieldnames_elem_of (flattened_data : list (dict pyval)) (c : string) :
  c ∈ collect_fieldnames flattened_data
  ↔ ∃ row, row ∈ flattened_data ∧ c ∈ dict_keys row.
Proof.
  unfold collect_fieldnames.
  enough (∀ acc : gset string,
    c ∈ foldl (λ fieldnames row, fieldnames ∪ list_to_set (dict_keys row))
          acc flattened_data
    ↔ c ∈ acc ∨ ∃ row, row ∈ flattened_data ∧ c ∈ dict_keys row) as Hgen.
  { rewrite Hgen. set_solver. }
  induction flattened_data as [|row rows IH]; intros acc; cbn [foldl].
  { split; [by left|]. intros [?|(row & ?%elem_of_nil & _)]; done. }
  rewrite IH, elem_of_union, elem_of_list_to_set. split.
  - intros [[?|?]|(row' & ? & ?)]; [by left|right; exists row|right; exists row'];
      split; try done; [left|by right].
  - intros [?|(row' & [->|?]%elem_of_cons & ?)];
      [by left; left|by left; right|right; by exists row'].
Qed.

(** Every key of every row is a field name: the writer never meets a key
    it was not told about. *)
Lemma collect_fieldnames_covers (flattened_data : list (dict pyval))
    (row : dict pyval) (c : string) :
  row ∈ flattened_data → c ∈ dict_keys row →
  c ∈ sorted (collect_fieldnames flattened_data).
Proof.
  intros Hrow Hc. unfold sorted. rewrite merge_sort_Permutation, elem_of_elements.
  apply collect_fieldnames_elem_of. by exists row.
Qed.

Lemma sorted_elem_of (fieldnames : gset string) (c : string) :
  c ∈ sorted fieldnames ↔ c ∈ fieldnames.
Proof. unfold sorted. by rewrite merge_sort_Permutation, elem_of_elements. Qed.

Lemma sorted_StronglySorted (fieldnames : gset string) :
  StronglySorted String.le (sorted fieldnames).
Proof. apply StronglySorted_merge_sort; apply _. Qed.

Lemma sorted_NoDup (fieldnames : gset string) : NoDup (sorted fieldnames).
Proof. unfold sorted. rewrite merge_sort_Permutation. apply NoDup_elements. Qed.

Lemma row_cells_missing (fieldnames : list string) (row : dict pyval)
    (j : nat) (c : string) :
  fieldnames !! j = Some c → c ∉ dict_keys row →
  row_cells fieldnames row !! j = Some (PStr EmptyString).
Proof.
  intros Hj Hmissing. unfold row_cells. rewrite list_lookup_fmap, Hj. cbn.
  apply dict_get_None_keys in Hmissing. by rewrite Hmissing.
Qed.
End Flattening.

Lemma length_entity_rows (entities : export_result) :
  length (entity_rows entities) = total_entities entities.
Proof.
  unfold entity_rows, total_entities, dict_values.
  induction entities as [|[blueprint_id blueprint_entities] entities IH]; [done|].
  rewrite bind_cons, length_app, length_fmap, IH. done.
Qed.

(** * The claims *)

(** ** The exclusion filter (C1) *)

(** C1, as stated, fails: an entity whose identifier is the empty string is
    not in the (empty) exclusion set, yet the filter drops it. *)
Lemma exclusion_filter_drops_empty_identifier :
  filter_excluded ∅
    [PDict [("identifier", PStr "a")]; PDict [("identifier", PStr EmptyString)]]
  ≠ Return
      (filter_as_specified ∅
         [PDict [("identifier", PStr "a")]; PDict [("identifier", PStr EmptyString)]]).
Proof. vm_compute. discriminate. Qed.

(** C1 (amended): for every exclusion set and every listing of entities
    (mappings whose identifier is hashable), the filter keeps exactly the
    entities whose identifier is truthy (in particular present, not null
    and not empty) and not in the exclusion set, in their original order;
    named-collections mode and all-entities mode return, under each
    blueprint, exactly that list (and no entry when it is empty). *)
Theorem exclusion_filter_keeps_usable_unexcluded (srv : catalog)
    (exclude : gset string) (include_calculated : bool)
    (blueprint_ids : list string) :
  (∀ c, c ∈ blueprint_ids →
        Forall listed_entity (entities_listing srv c include_calculated)) →
  (∀ c, c ∈ blueprint_ids →
        filter_excluded exclude (entities_listing srv c include_calculated)
        = Return (kept_entities exclude (entities_listing srv c include_calculated)))
  ∧ (∃ exported log,
       export_blueprint_entities srv blueprint_ids (Some exclude) include_calculated []
       = (Return exported, log)
       ∧ ∀ c, c ∈ blueprint_ids →
              dict_get c exported
              = unless_empty
                  (kept_entities exclude (entities_listing srv c include_calculated)))
  ∧ (blueprint_ids = blueprint_ids_of (blueprints_listing srv) →
     ∃ exported log,
       export_all_entities srv (Some exclude) include_calculated []
       = (Return exported, log)
       ∧ ∀ c, c ∈ blueprint_ids →
              dict_get c exported
              = unless_empty
                  (kept_entities exclude (entities_listing srv c include_calculated))).
Proof.
  intros Hok. split; [|split].
  - intros c Hc. by apply filter_excluded_listed, Hok.
  - destruct (export_blueprint_entities_listed srv exclude include_calculated
                blueprint_ids [] Hok) as (exported & Hrun & Hget).
    exists exported, (([] : list call) ++
      ((λ c, CallGetEntities c include_calculated) <$> blueprint_ids)).
    split; [done|]. intros c Hc. by rewrite Hget, decide_True.
  - intros ->. rewrite export_all_entities_run.
    destruct (export_blueprint_entities_listed srv exclude include_calculated
                _ ([] ++ [CallGetBlueprints]) Hok) as (exported & Hrun & Hget).
    eexists exported, _. split; [exact Hrun|].
    intros c Hc. by rewrite Hget, decide_True.
Qed.

(** On the sample catalog with [b] excluded, the listing of [svc] keeps [a]
    only: [b] is excluded and the entity without a usable identifier is
    dropped. *)
Lemma exclusion_filter_keeps_usable_unexcluded_witness :
  (∀ c, c ∈ ["svc"] → Forall listed_entity (entities_listing sample_catalog c true))
  ∧ filter_excluded {["b"]} (entities_listing sample_catalog "svc" true)
    = Return [entity_named "a"].
Proof.
  assert (∀ c, c ∈ ["svc"] →
               Forall listed_entity (entities_listing sample_catalog c true)) as Hok.
  { intros c ->%list_elem_of_singleton.
    repeat constructor; by eexists. }
  split; [exact Hok|].
  destruct (exclusion_filter_keeps_usable_unexcluded sample_catalog {["b"]} true
              ["svc"] Hok) as [Hfilter _].
  rewrite Hfilter by (by left). reflexivity.
Defined.

(** All-entities export of the sample catalog with [b] excluded. *)
Example export_all_entities_sample :
  export_all_entities sample_catalog (Some {["b"]}) true []
  = (Return [("svc", [entity_named "a"])],
     [CallGetBlueprints; CallGetEntities "svc" true; CallGetEntities "infra" true;
      CallGetEntities "net" true]).
Proof. vm_compute. reflexivity. Qed.

(** ** The flattened table (C2) *)

(** C2: for an export result with at least one entity, all of them
    mappings whose properties and relations are mappings when present,
    saving as CSV writes one table to the output file. The table has one
    row per entity; its columns are exactly the union, over the entities,
    of the seven fixed columns, [prop_<k>] for each property key and
    [rel_<k>] for each relation key; the columns appear once each, in one
    lexicographic order over fixed and dynamic names alike; every row has
    a cell for every column, and the cell of a column that the row's
    entity does not contribute is the empty string. *)
Theorem csv_table_layout (py_str : pyval → string) (entities : export_result)
    (output_file : string) (fs : filesystem) :
  0 < total_entities entities →
  Forall (λ item, flattenable item.2) (entity_rows entities) →
  ∃ fieldnames rows,
    save_entities py_str entities output_file "csv" fs
    = (Return tt, <[output_file := CsvTable fieldnames rows]> fs)
    ∧ length rows = total_entities entities
    ∧ (∀ c, c ∈ fieldnames
            ↔ ∃ item, item ∈ entity_rows entities ∧ c ∈ entity_columns item.2)
    ∧ StronglySorted String.le fieldnames
    ∧ NoDup fieldnames
    ∧ Forall2 (λ item cells,
                 length cells = length fieldnames
                 ∧ ∀ j c, fieldnames !! j = Some c →
                          c ∉ entity_columns item.2 →
                          cells !! j = Some (PStr EmptyString))
        (entity_rows entities) rows.
Proof.
  intros Hsome Hok. unfold save_entities. cbn [lower lower_ascii String.eqb].
  change (String.eqb (lower "csv") "json") with false.
  change (String.eqb (lower "csv") "yaml") with false.
  change (String.eqb (lower "csv") "csv") with true. cbn iota.
  rewrite flatten_rows by done.
  rewrite bool_decide_eq_false_2.
  2:{ intros Hnil%(f_equal length). rewrite length_fmap, length_entity_rows in Hnil.
      cbn in Hnil. lia. }
  set (flattened_data := entity_row py_str <$> entity_rows entities).
  set (fieldnames := sorted (collect_fieldnames flattened_data)).
  exists fieldnames, (row_cells fieldnames <$> flattened_data).
  split; [done|]. split.
  { subst flattened_data. by rewrite !length_fmap, length_entity_rows. }
  assert (∀ item c, item ∈ entity_rows entities →
            c ∈ dict_keys (entity_row py_str item) ↔ c ∈ entity_columns item.2)
    as Hcolumns.
  { intros item c Hitem.
    exact (entity_row_columns py_str item c
             (proj1 (Forall_forall _ _) Hok item Hitem)). }
  split.
  { intros c. subst fieldnames. rewrite sorted_elem_of, collect_fieldnames_elem_of.
    subst flattened_data. split.
    - intros (row & (item & -> & Hitem)%list_elem_of_fmap & Hc).
      exists item. split; [done|]. by apply Hcolumns.
    - intros (item & Hitem & Hc). exists (entity_row py_str item). split.
      + by apply list_elem_of_fmap_2.
      + by apply Hcolumns. }
  split; [apply sorted_StronglySorted|]. split; [apply sorted_NoDup|].
  subst flattened_data. rewrite <- list_fmap_compose.
  apply Forall2_fmap_r, Forall_Forall2_diag.
  apply Forall_forall. intros item Hitem. cbn. split.
  { unfold row_cells. by rewrite length_fmap. }
  intros j c Hj Hmissing. eapply row_cells_missing; [exact Hj|].
  by rewrite Hcolumns.
Qed.

(** The table written for two entities, one with a property and one with
    a relation: the dynamic columns sit between [entity_id] and [title]. *)
Example csv_table_sample :
  save_entities (λ _, "text")
    [("svc", [PDict [("identifier", PStr "a");
                     ("properties", PDict [("tier", PInt 1)])];
              PDict [("identifier", PStr "b");
                     ("relations", PDict [("owner", PNone)])]])]
    "out.csv" "csv" ∅
  = (Return tt,
     {["out.csv" :=
         CsvTable
           ["blueprint_id"; "created_at"; "created_by"; "entity_id"; "prop_tier";
            "rel_owner"; "title"; "updated_at"; "updated_by"]
           [[PStr "svc"; PStr EmptyString; PStr EmptyString; PStr "a"; PStr "text";
             PStr EmptyString; PStr EmptyString; PStr EmptyString; PStr EmptyString];
            [PStr "svc"; PStr EmptyString; PStr EmptyString; PStr "b";
             PStr EmptyString; PStr EmptyString; PStr EmptyString; PStr EmptyString;
             PStr EmptyString]]]}).
Proof. vm_compute. reflexivity. Qed.

(** The layout theorem at that input. *)
Lemma csv_table_layout_witness :
  ∃ fieldnames rows,
    save_entities (λ _, "text")
      [("svc", [PDict [("identifier", PStr "a");
                       ("properties", PDict [("tier", PInt 1)])];
                PDict [("identifier", PStr "b");
                       ("relations", PDict [("owner", PNone)])]])]
      "out.csv" "csv" ∅
    = (Return tt, <["out.csv" := CsvTable fieldnames rows]> ∅)
    ∧ length rows = 2
    ∧ StronglySorted String.le fieldnames.
Proof.
  destruct (csv_table_layout (λ _, "text")
              [("svc", [PDict [("identifier", PStr "a");
                               ("properties", PDict [("tier", PInt 1)])];
                        PDict [("identifier", PStr "b");
                               ("relations", PDict [("owner", PNone)])]])]
              "out.csv" ∅) as (fieldnames & rows & Hsave & Hlength & _ & Hsorted & _).
  - cbn. lia.
  - repeat constructor; eexists; (split; [reflexivity|]); split;
      first [by left | right; by eexists].
  - exists fieldnames, rows. split; [exact Hsave|]. split; [exact Hlength|exact Hsorted].
Defined.

(** ** Named-entities mode (C3, C4) *)

(** C3: an export of named entities is the same whatever the exclusion set;
    it returns a result, its log starts with exactly one [get_entity] call
    per explicit spec, in order, for the blueprint before the first colon
    and the entity after it, and every such call that finds an entity has
    it recorded under that blueprint, whether or not its identifier is in
    the exclusion set. *)
Theorem named_entities_ignore_exclusion (srv : catalog) (entity_specs : list string)
    (exclude exclude' : gset string) (include_calculated : bool) :
  main_export srv (ExportEntities entity_specs) exclude include_calculated []
  = main_export srv (ExportEntities entity_specs) exclude' include_calculated []
  ∧ ∃ exported,
      main_export srv (ExportEntities entity_specs) exclude include_calculated []
      = (Return exported,
         ((λ spec, CallGetEntity (before_colon spec) (after_colon spec)
                     include_calculated)
            <$> filter (λ spec, has_colon spec = true) entity_specs)
         ++ (if bool_decide
                  (filter (λ spec, has_colon spec = false) entity_specs = [])
             then []
             else CallGetBlueprints
                  :: (lookup_call include_calculated
                        <$> bare_lookups srv entity_specs)))
      ∧ ∀ spec,
          spec ∈ entity_specs → has_colon spec = true →
          truthy (entity_lookup srv (before_colon spec) (after_colon spec)
                    include_calculated) = true →
          ∃ l, dict_get (before_colon spec) exported = Some l
               ∧ entity_lookup srv (before_colon spec) (after_colon spec)
                   include_calculated ∈ l.
Proof.
  split; [done|]. cbn [main_export]. rewrite export_specific_entities_run.
  eexists. split.
  { cbn [app]. unfold explicit_lookups. by rewrite <- list_fmap_compose. }
  intros spec Hin Hcolon Hhit. rewrite lookup_record_lookups. cbn [dict_get].
  eexists. split.
  - unfold unless_empty. rewrite bool_decide_eq_false_2; [done|].
    intros Hnil.
    eapply (not_elem_of_nil (A:=pyval)). rewrite <- Hnil.
    apply elem_of_hits_under; [|exact Hhit].
    apply elem_of_app. left. by apply elem_of_explicit_lookups.
  - apply elem_of_hits_under; [|exact Hhit].
    apply elem_of_app. left. by apply elem_of_explicit_lookups.
Qed.

(** The entity [db-1] is exported from [infra] although [db-1] is in the
    exclusion set. *)
Lemma named_entities_ignore_exclusion_witness :
  main_export sample_catalog (ExportEntities ["infra:db-1"]) {["db-1"]} true []
  = (Return [("infra", [entity_named "db-1"])], [CallGetEntity "infra" "db-1" true]).
Proof.
  destruct (named_entities_ignore_exclusion sample_catalog ["infra:db-1"]
              {["db-1"]} ∅ true) as [-> _].
  vm_compute. reflexivity.
Defined.

(** C4, as stated, fails: a listed blueprint whose identifier is the empty
    string is skipped, so no lookup is attempted against it. *)
Lemma bare_search_skips_unnamed_blueprint :
  ¬ searched_in_every_blueprint unnamed_blueprint_catalog ["x"] true.
Proof.
  intros Hall.
  specialize (Hall (Blueprint (Some EmptyString) []) EmptyString "x").
  assert (CallGetEntity EmptyString "x" true ∈ [CallGetBlueprints]) as Hin.
  { apply Hall; [by left|done|by left|done]. }
  apply list_elem_of_singleton in Hin. discriminate.
Qed.

(** C4 (amended): named-entities mode returns a result; every bare
    identifier is looked up in every listed blueprint whose identifier is
    present and not empty, and a lookup that finds an entity has it
    recorded under that blueprint; the list recorded under a blueprint is
    the sequence of all hits of the lookups made for it, repetitions
    included. *)
Theorem bare_ids_searched_in_named_blueprints (srv : catalog)
    (entity_specs : list string) (include_calculated : bool) :
  ∃ exported log,
    export_specific_entities srv entity_specs include_calculated []
    = (Return exported, log)
    ∧ (∀ b c e,
         b ∈ blueprints_listing srv → bp_identifier b = Some c → c ≠ EmptyString →
         e ∈ entity_specs → has_colon e = false →
         CallGetEntity c e include_calculated ∈ log
         ∧ (truthy (entity_lookup srv c e include_calculated) = true →
            ∃ l, dict_get c exported = Some l
                 ∧ entity_lookup srv c e include_calculated ∈ l))
    ∧ (∀ c, dict_get c exported
            = unless_empty
                (hits_under srv include_calculated c
                   (explicit_lookups entity_specs ++ bare_lookups srv entity_specs))).
Proof.
  rewrite export_specific_entities_run. eexists _, _. split; [done|].
  assert (∀ c, dict_get c
                 (foldl (record_lookup srv include_calculated) []
                    (explicit_lookups entity_specs ++ bare_lookups srv entity_specs))
               = unless_empty
                   (hits_under srv include_calculated c
                      (explicit_lookups entity_specs ++ bare_lookups srv entity_specs)))
    as Hget.
  { intros c. by rewrite lookup_record_lookups. }
  split; [|exact Hget].
  intros b c e Hb Hid Hne He Hbare.
  assert ((c, e) ∈ bare_lookups srv entity_specs) as Hpair.
  { apply elem_of_bare_lookups; [|done..]. by eapply elem_of_blueprint_ids_of. }
  split.
  - cbn [app]. apply elem_of_app. right.
    rewrite bool_decide_eq_false_2.
    + right. by apply (list_elem_of_fmap_2 (lookup_call include_calculated) _ (c, e)).
    + intros Hnil.
      assert (e ∈ filter (λ spec, has_colon spec = false) entity_specs) as Hin
        by (by apply list_elem_of_filter).
      rewrite Hnil in Hin. by apply not_elem_of_nil in Hin.
  - intros Hhit. rewrite Hget.
    assert (entity_lookup srv c e include_calculated
            ∈ hits_under srv include_calculated c
                (explicit_lookups entity_specs ++ bare_lookups srv entity_specs))
      as Hfound.
    { apply elem_of_hits_under; [|done]. apply elem_of_app. by right. }
    eexists. split; [|exact Hfound].
    unfold unless_empty. rewrite bool_decide_eq_false_2; [done|].
    intros Hnil. rewrite Hnil in Hfound. by apply not_elem_of_nil in Hfound.
Qed.

(** The specs [infra:db-1] and [db-1] on the sample catalog: [db-1] ends up
    twice under [infra] and once under [net]. *)
Lemma bare_ids_searched_in_named_blueprints_witness :
  export_specific_entities sample_catalog ["infra:db-1"; "db-1"] true []
  = (Return [("infra", [entity_named "db-1"; entity_named "db-1"]);
             ("net", [entity_named "db-1"])],
     [CallGetEntity "infra" "db-1" true; CallGetBlueprints;
      CallGetEntity "svc" "db-1" true; CallGetEntity "infra" "db-1" true;
      CallGetEntity "net" "db-1" true])
  ∧ CallGetEntity "net" "db-1" true
      ∈ [CallGetEntity "infra" "db-1" true; CallGetBlueprints;
         CallGetEntity "svc" "db-1" true; CallGetEntity "infra" "db-1" true;
         CallGetEntity "net" "db-1" true].
Proof.
  destruct (bare_ids_searched_in_named_blueprints sample_catalog
              ["infra:db-1"; "db-1"] true) as (exported & log & Hrun & Hsearch & _).
  assert (export_specific_entities sample_catalog ["infra:db-1"; "db-1"] true []
          = (Return [("infra", [entity_named "db-1"; entity_named "db-1"]);
                     ("net", [entity_named "db-1"])],
             [CallGetEntity "infra" "db-1" true; CallGetBlueprints;
              CallGetEntity "svc" "db-1" true; CallGetEntity "infra" "db-1" true;
              CallGetEntity "net" "db-1" true])) as Hvalue.
  { vm_compute. reflexivity. }
  split; [exact Hvalue|].
  rewrite Hvalue in Hrun. injection Hrun as _ <-.
  apply (Hsearch (Blueprint (Some "net") []) "net" "db-1").
  - right. right. left.
  - reflexivity.
  - discriminate.
  - right. left.
  - reflexivity.
Defined.

(** ** No empty entries (C5) *)

(** C5: whatever the catalog, the export option and the exclusion set, when
    the export returns a result, every blueprint key of the result maps to
    a non-empty list; in the two listing modes a blueprint whose filtered
    list is empty has no entry. *)
Theorem export_never_maps_to_empty (srv : catalog) (option : export_option)
    (exclude : gset string) (include_calculated : bool)
    (exported : export_result) (log0 log : list call) :
  main_export srv option exclude include_calculated log0 = (Return exported, log) →
  all_nonempty exported
  ∧ (∀ c, dict_get c exported ≠ Some [])
  ∧ match option with
    | ExportEntities _ => True
    | _ => ∀ c, filter_excluded exclude (entities_listing srv c include_calculated)
                = Return [] →
                dict_get c exported = None
    end.
Proof.
  intros Hrun.
  assert (all_nonempty exported
          ∧ match option with
            | ExportEntities _ => True
            | _ => holds_filtered srv include_calculated exclude exported
            end) as [Hall Hheld].
  { destruct option as [|blueprint_list|entity_list]; cbn [main_export] in Hrun.
    - rewrite export_all_entities_run in Hrun.
      by apply export_blueprint_entities_invariant in Hrun.
    - by apply export_blueprint_entities_invariant in Hrun.
    - rewrite export_specific_entities_run in Hrun. injection Hrun as <- _.
      split; [|done]. apply foldl_record_lookup_nonempty. constructor. }
  split; [done|]. split; [intros c; by apply all_nonempty_lookup|].
  destruct option; [| |done]; intros c Hfilter;
    (destruct (dict_get c exported) as [l|] eqn:Hget; [|done]);
    pose proof (Hheld c l Hget) as Hl; rewrite Hfilter in Hl;
    injection Hl as <-; by apply all_nonempty_lookup in Hget.
Qed.

(** With [a] and [b] excluded nothing of [svc] is left, and [svc] has no
    entry. *)
Lemma export_never_maps_to_empty_witness :
  main_export sample_catalog ExportAll {["a"; "b"]} true []
  = (Return [],
     [CallGetBlueprints; CallGetEntities "svc" true; CallGetEntities "infra" true;
      CallGetEntities "net" true])
  ∧ all_nonempty []
  ∧ dict_get "svc" ([] : export_result) = None.
Proof.
  assert (main_export sample_catalog ExportAll {["a"; "b"]} true []
          = (Return [],
             [CallGetBlueprints; CallGetEntities "svc" true;
              CallGetEntities "infra" true; CallGetEntities "net" true])) as Hrun.
  { vm_compute. reflexivity. }
  split; [exact Hrun|].
  destruct (export_never_maps_to_empty _ _ _ _ _ _ _ Hrun) as (Hall & _ & Hnone).
  split; [exact Hall|]. apply Hnone. vm_compute. reflexivity.
Defined.

(** ** Fetching one entity (C7) *)

(** C7: [get_entity] never raises. It returns a value, and that value is
    [None] exactly when the request failed in any of the ways of
    [lookup_failure]: a transport error, an error status such as 404, a
    body that does not parse, or a response without a usable entity field;
    nothing in the returned value tells these apart. *)
Theorem get_entity_absent_on_failure (srv : catalog) (c e : string)
    (include_calculated : bool) (log : list call) :
  ∃ entity,
    get_entity srv c e include_calculated log
    = (Return entity, log ++ [CallGetEntity c e include_calculated])
    ∧ (entity = PNone
       ↔ lookup_failure
           (session_get srv (entity_url srv c e)
              (calculated_params include_calculated))).
Proof.
  exists (entity_lookup srv c e include_calculated).
  split; [apply get_entity_run|apply entity_lookup_None_iff].
Qed.

(** A request that is answered with status 404, and one that succeeds. *)
Example get_entity_sample :
  get_entity sample_catalog "svc" "db-1" true []
  = (Return PNone, [CallGetEntity "svc" "db-1" true])
  ∧ get_entity sample_catalog "net" "db-1" false []
    = (Return (entity_named "db-1"), [CallGetEntity "net" "db-1" false]).
Proof. split; vm_compute; reflexivity. Qed.

(** ** Saving a result without entities (C8) *)

(** C8: when the export result holds no entity at all, saving it as CSV
    returns normally and leaves the file system as it was: no file is
    created or overwritten at the output path, so no header-only file
    appears. *)
Theorem save_csv_no_entities_writes_nothing (py_str : pyval → string)
    (entities : export_result) (output_file : string) (fs : filesystem) :
  total_entities entities = 0 →
  save_entities py_str entities output_file "csv" fs = (Return tt, fs)
  ∧ (save_entities py_str entities output_file "csv" fs).2 !! output_file
    = fs !! output_file.
Proof.
  intros Hzero. unfold save_entities. simpl.
  by rewrite (flatten_no_entities _ _ Hzero).
Qed.

(** A result with one blueprint and no entity leaves an empty file system
    empty. *)
Lemma save_csv_no_entities_writes_nothing_witness :
  total_entities [("svc", [])] = 0
  ∧ save_entities (λ _, "none") [("svc", [])] "out.csv" "csv" ∅ = (Return tt, ∅).
Proof.
  split; [reflexivity|].
  apply (save_csv_no_entities_writes_nothing (λ _, "none") [("svc", [])] "out.csv" ∅).
  reflexivity.
Defined.

(** ** Splitting explicit specs (C9) *)

(** C9: a spec [a:b:c] whose first part [a] has no colon is split at its
    first colon only: the single lookup made for it asks blueprint [a] for
    the entity [b:c]. *)
Theorem explicit_spec_splits_at_first_colon (srv : catalog) (a b c : string)
    (include_calculated : bool) :
  has_colon a = false →
  split_colon_once (a +:+ ":" +:+ b +:+ ":" +:+ c) = [a; b +:+ ":" +:+ c]
  ∧ ∃ exported,
      export_specific_entities srv [a +:+ ":" +:+ b +:+ ":" +:+ c]
        include_calculated []
      = (Return exported, [CallGetEntity a (b +:+ ":" +:+ c) include_calculated]).
Proof.
  intros Ha.
  destruct (before_after_colon a (b +:+ ":" +:+ c) Ha) as (Hcolon & Hbefore & Hafter).
  split.
  { by rewrite split_colon_once_explicit, Hbefore, Hafter. }
  rewrite export_specific_entities_run. eexists. f_equal.
  unfold explicit_lookups, lookup_call.
  rewrite !filter_cons, !filter_nil, Hcolon.
  rewrite decide_True, decide_False by done. cbn [fmap list_fmap app fst snd].
  rewrite bool_decide_eq_true_2 by done. by rewrite Hbefore, Hafter.
Qed.

(** The spec [infra:db:1] asks blueprint [infra] for the entity [db:1]. *)
Lemma explicit_spec_splits_at_first_colon_witness :
  has_colon "infra" = false
  ∧ ∃ exported,
      export_specific_entities sample_catalog ["infra:db:1"] true []
      = (Return exported, [CallGetEntity "infra" "db:1" true]).
Proof.
  split; [reflexivity|].
  apply (explicit_spec_splits_at_first_colon sample_catalog "infra" "db" "1" true).
  reflexivity.
Defined.

(** ** Saving the empty mapping (C10) *)

(** C10: saving the empty mapping as JSON or as YAML writes the output file,
    and the file holds the empty mapping; saving it as CSV writes nothing. *)
Theorem save_empty_mapping (py_str : pyval → string) (output_file : string)
    (fs : filesystem) :
  save_entities py_str [] output_file "json" fs
    = (Return tt, <[output_file := JsonDocument []]> fs)
  ∧ save_entities py_str [] output_file "yaml" fs
    = (Return tt, <[output_file := YamlDocument []]> fs)
  ∧ save_entities py_str [] output_file "csv" fs = (Return tt, fs)
  ∧ (<[output_file := JsonDocument []]> fs) !! output_file = Some (JsonDocument [])
  ∧ (<[output_file := YamlDocument []]> fs) !! output_file = Some (YamlDocument []).
Proof.
  repeat split; try done; apply lookup_insert_eq.
Qed.

(** * Further properties *)

(** ** What the exclusion filter lets through *)

Section FilterSoundness.
Variable exclude : gset string.

Lemma filter_excluded_body_cases (acc acc' : list pyval) (entity : pyval) :
  filter_excluded_body exclude acc entity = Return acc' →
  acc' = acc ∨ (acc' = acc ++ [entity] ∧ passes_filter exclude entity).
Proof.
  unfold filter_excluded_body, passes_filter, is_excluded.
  destruct entity as [| | | | | |fields]; cbn [py_get]; run_result; try done.
  cbn [identifier_of]. destruct (truthy (default PNone (dict_get "identifier" fields)))
    eqn:Htruthy.
  - destruct (default PNone (dict_get "identifier" fields)) as [| | | |x| |];
      cbn [py_in negb]; try done;
      try (intros [= <-]; right; split; [done|]; split; [by eexists|done]).
    destruct (bool_decide (x ∈ exclude)) eqn:Hin; cbn [negb].
    + intros [= <-]. by left.
    + intros [= <-]. right. split; [done|]. split; [by eexists|done].
  - destruct (default PNone (dict_get "identifier" fields)); cbn [py_in]; try done;
      intros [= <-]; by left.
Qed.

Lemma filter_excluded_sound_from (entities acc filtered : list pyval) :
  for_each entities acc (filter_excluded_body exclude) = Return filtered →
  ∃ kept, filtered = acc ++ kept
          ∧ kept `sublist_of` entities
          ∧ Forall (passes_filter exclude) kept.
Proof.
  revert acc. induction entities as [|entity entities IH]; intros acc; cbn [for_each].
  { intros [= <-]. exists []. by rewrite app_nil_r. }
  destruct (filter_excluded_body exclude acc entity) as [acc'|e] eqn:Hbody; [|done].
  run_result. intros (kept & -> & Hsub & Hall)%IH.
  destruct (filter_excluded_body_cases _ _ _ Hbody) as [->|[-> Hpass]].
  - exists kept. split; [done|]. split; [by apply sublist_cons|done].
  - exists (entity :: kept). rewrite <- app_assoc. split; [done|].
    split; [by apply sublist_skip|by constructor].
Qed.

Lemma filter_excluded_sound (entities filtered : list pyval) :
  filter_excluded exclude entities = Return filtered →
  filtered `sublist_of` entities ∧ Forall (passes_filter exclude) filtered.
Proof. by intros (kept & -> & ? & ?)%filter_excluded_sound_from. Qed.
End FilterSoundness.

(** X1: whenever all-entities mode or named-collections mode returns a
    result, every list in it is a sublist of what was listed for its
    blueprint, and every exported entity is a mapping with a truthy
    identifier that is not in the exclusion set: an excluded entity is never
    exported, whatever else the listings hold. *)
Theorem listing_modes_export_only_unexcluded (srv : catalog) (option : export_option)
    (exclude : gset string) (include_calculated : bool)
    (exported : export_result) (log0 log : list call) :
  (∀ entity_list, option ≠ ExportEntities entity_list) →
  main_export srv option exclude include_calculated log0 = (Return exported, log) →
  ∀ c entities,
    dict_get c exported = Some entities →
    entities `sublist_of` entities_listing srv c include_calculated
    ∧ Forall (passes_filter exclude) entities.
Proof.
  intros Hmode Hrun c entities Hget.
  assert (holds_filtered srv include_calculated exclude exported) as Hheld.
  { destruct option as [|blueprint_list|entity_list]; cbn [main_export] in Hrun.
    - rewrite export_all_entities_run in Hrun.
      by apply export_blueprint_entities_invariant in Hrun as [_ ?].
    - by apply export_blueprint_entities_invariant in Hrun as [_ ?].
    - by destruct (Hmode entity_list). }
  by apply filter_excluded_sound, Hheld.
Qed.

Lemma listing_modes_export_only_unexcluded_witness :
  main_export sample_catalog ExportAll {["b"]} true []
  = (Return [("svc", [entity_named "a"])],
     [CallGetBlueprints; CallGetEntities "svc" true; CallGetEntities "infra" true;
      CallGetEntities "net" true])
  ∧ Forall (passes_filter {["b"]}) [entity_named "a"].
Proof.
  assert (main_export sample_catalog ExportAll {["b"]} true []
          = (Return [("svc", [entity_named "a"])],
             [CallGetBlueprints; CallGetEntities "svc" true;
              CallGetEntities "infra" true; CallGetEntities "net" true])) as Hrun.
  { vm_compute. reflexivity. }
  split; [exact Hrun|].
  refine (proj2 (listing_modes_export_only_unexcluded _ _ _ _ _ _ _ _ Hrun
                   "svc" [entity_named "a"] _)).
  - discriminate.
  - reflexivity.
Defined.

(** ** A listing the filter cannot handle *)

Section FilterFailure.
Variable exclude : gset string.

Lemma filter_excluded_body_unlisted (acc : list pyval) (entity : pyval) :
  ¬ listed_entity entity →
  filter_excluded_body exclude acc entity = Raise (filter_error entity).
Proof.
  intros Hbad. unfold filter_excluded_body.
  destruct entity as [| | | | | |fields]; cbn [py_get]; run_result; try done.
  assert (hashable (default PNone (dict_get "identifier" fields)) = false) as Hhash.
  { apply not_true_is_false. intros Hhash. apply Hbad. split; [by eexists|done]. }
  destruct (default PNone (dict_get "identifier" fields)) as [| | | | |items|fields'];
    try done; cbn [py_in filter_error]; by destruct (truthy _).
Qed.

Lemma filter_excluded_raises (good rest : list pyval) (bad : pyval) :
  Forall listed_entity good → ¬ listed_entity bad →
  filter_excluded exclude (good ++ bad :: rest) = Raise (filter_error bad).
Proof.
  intros Hgood Hbad. unfold filter_excluded. generalize (@nil pyval) as acc.
  induction Hgood as [|entity good Hentity _ IH]; intros acc; cbn [app for_each].
  - by rewrite filter_excluded_body_unlisted.
  - rewrite (filter_excluded_body_listed _ _ _ Hentity). run_result. apply IH.
Qed.
End FilterFailure.

Lemma for_each_client_app {A S : Type} (body : S → A → client S) (xs ys : list A)
    (s : S) (log : list call) :
  for_each (xs ++ ys) s body log
  = match for_each xs s body log with
    | (Return s', log') => for_each ys s' body log'
    | (Raise e, log') => (Raise e, log')
    end.
Proof.
  revert s log. induction xs as [|x xs IH]; intros s log; cbn [app for_each].
  { by run_client. }
  run_client. destruct (body s x log) as [[s'|e] log']; [apply IH|done].
Qed.

(** X2: an entity that is not a mapping, or whose identifier is a list or
    a mapping, aborts the export: the filter raises ([AttributeError] for
    the first, [TypeError] for the second), named-collections mode raises
    the same exception without returning any result, and the blueprints
    after the offending one are never requested. *)
Theorem malformed_entity_aborts_export (srv : catalog) (exclude : gset string)
    (include_calculated : bool) (before after : list string) (c : string)
    (good rest : list pyval) (bad : pyval) (log : list call) :
  (∀ c', c' ∈ before →
         Forall listed_entity (entities_listing srv c' include_calculated)) →
  entities_listing srv c include_calculated = good ++ bad :: rest →
  Forall listed_entity good →
  ¬ listed_entity bad →
  filter_excluded exclude (good ++ bad :: rest) = Raise (filter_error bad)
  ∧ export_blueprint_entities srv (before ++ c :: after) (Some exclude)
      include_calculated log
    = (Raise (filter_error bad),
       log ++ ((λ c', CallGetEntities c' include_calculated) <$> before)
           ++ [CallGetEntities c include_calculated]).
Proof.
  intros Hbefore Hlisting Hgood Hbad.
  split; [by apply filter_excluded_raises|].
  unfold export_blueprint_entities, or_empty_set. cbn [default].
  rewrite for_each_client_app, export_blueprint_entities_from by done.
  cbn [for_each]. run_client. rewrite export_blueprint_run, Hlisting.
  rewrite filter_excluded_raises by done. run_result. by rewrite <- app_assoc.
Qed.

Lemma malformed_entity_aborts_export_witness :
  export_blueprint_entities
    {| base_url := "https://api.getport.io/v1";
       blueprints_listing := [];
       entities_listing := λ c _,
         if String.eqb c "svc" then [entity_named "a"]
         else [entity_named "b"; PStr "not an entity"; entity_named "c"];
       session_get := λ _ _, NoResponse |}
    ["svc"; "ops"; "net"] (Some ∅) true []
  = (Raise AttributeError, [CallGetEntities "svc" true; CallGetEntities "ops" true]).
Proof.
  refine (proj2 (malformed_entity_aborts_export _ ∅ true ["svc"] ["net"] "ops"
                   [entity_named "b"] [entity_named "c"] (PStr "not an entity") []
                   _ _ _ _)).
  - intros c' ->%list_elem_of_singleton. repeat constructor; by eexists.
  - reflexivity.
  - repeat constructor; by eexists.
  - intros [[fields Hfields] _]. discriminate.
Defined.

(** ** The requests of all-entities mode *)



(** ** The requests and the size of a named-entities export *)

Section NamedCounts.
Variable srv : catalog.
Variable include_calculated : bool.

Lemma total_entities_dict_set (k : string) (v : list pyval) (d : export_result) :
  total_entities (dict_set k v d) + length (default [] (dict_get k d))
  = total_entities d + length v.
Proof.
  unfold total_entities, dict_values.
  induction d as [|[k' v'] d IH]; cbn; [lia|].
  destruct (String.eqb k' k); cbn; lia.
Qed.

Lemma total_entities_append_entity (c : string) (entity : pyval) (d : export_result) :
  total_entities (append_entity c entity d) = S (total_entities d).
Proof.
  unfold append_entity. destruct (dict_mem c d) eqn:Hmem; cbn [negb].
  - pose proof (total_entities_dict_set c (default [] (dict_get c d) ++ [entity]) d).
    rewrite length_app in *. cbn in *. lia.
  - apply dict_mem_false in Hmem.
    pose proof (total_entities_dict_set c [] d) as Hfirst.
    pose proof (total_entities_dict_set c
                  (default [] (dict_get c (dict_set c [] d)) ++ [entity])
                  (dict_set c [] d)) as Hsecond.
    rewrite Hmem in Hfirst. rewrite dict_get_set_eq in *. cbn in *. lia.
Qed.

Lemma total_entities_record_lookups (pairs : list (string * string))
    (d : export_result) :
  total_entities (foldl (record_lookup srv include_calculated) d pairs)
  = total_entities d + length (successful_lookups srv include_calculated pairs).
Proof.
  unfold successful_lookups. revert d.
  induction pairs as [|pair pairs IH]; intros d; cbn [foldl]; [cbn; lia|].
  rewrite IH, filter_cons. unfold record_lookup.
  destruct (truthy _) eqn:Hhit.
  - rewrite total_entities_append_entity, decide_True by done. cbn. lia.
  - rewrite decide_False by done. lia.
Qed.

Lemma length_bare_lookups (entity_specs : list string) :
  length (bare_lookups srv entity_specs)
  = length (blueprint_ids_of (blueprints_listing srv))
    * length (filter (λ spec, has_colon spec = false) entity_specs).
Proof.
  unfold bare_lookups.
  induction (blueprint_ids_of (blueprints_listing srv)) as [|c ids IH]; [done|].
  rewrite bind_cons, length_app, IH.
  change (mbind ?f ?l) with (list_bind _ _ f l) at 1.
  rewrite pair_with_each, length_fmap. cbn. lia.
Qed.

Lemma count_calls_app (test : call → bool) (log1 log2 : list call) :
  count_calls test (log1 ++ log2) = count_calls test log1 + count_calls test log2.
Proof. unfold count_calls. by rewrite filter_app, length_app. Qed.

Lemma count_lookup_calls (pairs : list (string * string)) :
  count_calls is_entity_request (lookup_call include_calculated <$> pairs)
  = length pairs
  ∧ count_calls is_blueprints_request (lookup_call include_calculated <$> pairs) = 0
  ∧ count_calls is_entities_request (lookup_call include_calculated <$> pairs) = 0.
Proof.
  unfold count_calls.
  induction pairs as [|pair pairs (IH1 & IH2 & IH3)]; [done|].
  rewrite fmap_cons, !filter_cons.
  cbn [lookup_call is_entity_request is_blueprints_request is_entities_request].
  rewrite decide_True, !decide_False by done. cbn [length]. by rewrite IH1.
Qed.
End NamedCounts.

Lemma named_entities_mode_requests_lemma (srv : catalog)
    (entity_specs : list string) (include_calculated : bool) :
  count_calls is_entity_request
    (export_specific_entities srv entity_specs include_calculated []).2
  = length (filter (λ spec, has_colon spec = true) entity_specs)
    + length (blueprint_ids_of (blueprints_listing srv))
      * length (filter (λ spec, has_colon spec = false) entity_specs).
Proof.
  rewrite export_specific_entities_run. cbn [snd app]. rewrite count_calls_app.
  destruct (count_lookup_calls include_calculated (explicit_lookups entity_specs))
    as (-> & _ & _).
  destruct (count_lookup_calls include_calculated (bare_lookups srv entity_specs))
    as (Hentity & _ & _).
  assert (length (explicit_lookups entity_specs)
          = length (filter (λ spec, has_colon spec = true) entity_specs)) as ->.
  { unfold explicit_lookups. by rewrite length_fmap. }
  case_bool_decide as Hbare.
  - rewrite Hbare. cbn. lia.
  - unfold count_calls in *. rewrite filter_cons. cbn [is_entity_request].
    rewrite decide_False by done. rewrite Hentity, length_bare_lookups. lia.
Qed.


(** X5: the number of entities a named-entities export holds is the number
    of its lookups that found an entity: every hit is exported once, a miss
    adds nothing, and nothing else is exported. *)
Theorem named_entities_export_size (srv : catalog) (entity_specs : list string)
    (include_calculated : bool) :
  ∃ exported log,
    export_specific_entities srv entity_specs include_calculated []
    = (Return exported, log)
    ∧ total_entities exported
      = length (successful_lookups srv include_calculated
                  (explicit_lookups entity_specs ++ bare_lookups srv entity_specs))
    ∧ (total_entities exported ≤ count_calls is_entity_request log)%nat.
Proof.
  pose proof (named_entities_mode_requests_lemma srv entity_specs include_calculated)
    as Hcount.
  rewrite export_specific_entities_run in *. eexists _, _. split; [done|].
  rewrite total_entities_record_lookups. split; [done|].
  cbn [snd] in Hcount. rewrite Hcount. unfold successful_lookups.
  etrans; [apply length_filter|].
  rewrite length_app, length_bare_lookups. unfold explicit_lookups.
  rewrite length_fmap. cbn. lia.
Qed.

(** ** What saving touches, and when it fails *)

Section SavingFacts.
Variable py_str : pyval → string.






Lemma add_columns_other (prefix : string) (items : list (string * pyval))
    (row : dict pyval) (c : string) :
  c ∉ (λ k, prefix +:+ k) <$> dict_keys items →
  dict_get c (add_columns py_str prefix items row) = dict_get c row.
Proof.
  unfold add_columns, dict_keys. revert row.
  induction items as [|[k v] items IH]; intros row Hc; cbn [foldl]; [done|].
  cbn in Hc. apply not_elem_of_cons in Hc as [Hne Hc].
  rewrite IH by done. by apply dict_get_set_ne.
Qed.

Lemma add_columns_value (prefix : string) (items : list (string * pyval))
    (row : dict pyval) (k : string) (v : pyval) :
  NoDup (dict_keys items) → dict_get k items = Some v →
  dict_get (prefix +:+ k) (add_columns py_str prefix items row)
  = Some (cell_text py_str v).
Proof.
  revert row. induction items as [|[k0 v0] items IH]; intros row Hnodup Hget;
    [done|].
  unfold dict_keys in Hnodup. cbn in Hnodup, Hget.
  apply NoDup_cons in Hnodup as [Hfresh Hnodup].
  change (add_columns py_str prefix ((k0, v0) :: items) row)
    with (add_columns py_str prefix items
            (dict_set (prefix +:+ k0) (cell_text py_str v0) row)).
  destruct (String.eqb_spec k0 k) as [->|Hne].
  - injection Hget as ->. rewrite add_columns_other.
    + apply dict_get_set_eq.
    + intros (k' & Heq & Hk')%list_elem_of_fmap.
      apply (inj (String.app prefix)) in Heq as <-. done.
  - by apply IH.
Qed.

Lemma entity_row_built (blueprint_id : string) (fields : dict pyval) :
  flattenable (PDict fields) →
  entity_row py_str (blueprint_id, PDict fields)
  = add_columns py_str "rel_" (mapping_under "relations" (PDict fields))
      (add_columns py_str "prop_" (mapping_under "properties" (PDict fields))
         [("blueprint_id", PStr blueprint_id);
          ("entity_id", field_or_empty "identifier" (PDict fields));
          ("title", field_or_empty "title" (PDict fields));
          ("created_at", field_or_empty "createdAt" (PDict fields));
          ("updated_at", field_or_empty "updatedAt" (PDict fields));
          ("created_by", field_or_empty "createdBy" (PDict fields));
          ("updated_by", field_or_empty "updatedBy" (PDict fields))]).
Proof.
  intros (fields' & [= <-] & Hprops & Hrels).
  unfold entity_row, flatten_entity, mapping_under, field_or_empty.
  cbn [fst snd py_get]. run_result.
  destruct Hprops as [Hp|[props Hp]], Hrels as [Hr|[rels Hr]]; by rewrite Hp, Hr.
Qed.

Lemma entity_row_cells (blueprint_id : string) (fields : dict pyval) :
  flattenable (PDict fields) →
  dict_get "blueprint_id" (entity_row py_str (blueprint_id, PDict fields))
  = Some (PStr blueprint_id)
  ∧ (∀ column key, (column, key) ∈ copied_fields →
       dict_get column (entity_row py_str (blueprint_id, PDict fields))
       = Some (field_or_empty key (PDict fields)))
  ∧ (∀ k v, NoDup (dict_keys (mapping_under "properties" (PDict fields))) →
            dict_get k (mapping_under "properties" (PDict fields)) = Some v →
            dict_get ("prop_" +:+ k) (entity_row py_str (blueprint_id, PDict fields))
            = Some (cell_text py_str v))
  ∧ (∀ k v, NoDup (dict_keys (mapping_under "relations" (PDict fields))) →
            dict_get k (mapping_under "relations" (PDict fields)) = Some v →
            dict_get ("rel_" +:+ k) (entity_row py_str (blueprint_id, PDict fields))
            = Some (cell_text py_str v)).
Proof.
  intros Hok. rewrite (entity_row_built _ _ Hok).
  generalize (mapping_under "properties" (PDict fields)) as props.
  generalize (mapping_under "relations" (PDict fields)) as rels.
  intros rels props.
  assert (∀ c k, c ∈ fixed_columns → c ≠ "prop_" +:+ k ∧ c ≠ "rel_" +:+ k) as Hfixed.
  { intros c k Hc. unfold fixed_columns in Hc.
    repeat (apply elem_of_cons in Hc as [->|Hc]; [by split|]).
    by apply elem_of_nil in Hc. }
  assert (∀ c base, c ∈ fixed_columns →
            dict_get c (add_columns py_str "rel_" rels
                          (add_columns py_str "prop_" props base))
            = dict_get c base) as Hkept.
  { intros c base Hc. rewrite !add_columns_other; [done|..];
      intros (k & -> & _)%list_elem_of_fmap; by destruct (Hfixed _ k Hc). }
  split_and!.
  - rewrite Hkept; [done|]. unfold fixed_columns. set_solver.
  - intros column key Hin. unfold copied_fields in Hin.
    repeat (apply elem_of_cons in Hin as [[= -> ->]|Hin];
            [rewrite Hkept; [done|unfold fixed_columns; set_solver]|]).
    by apply elem_of_nil in Hin.
  - intros k v Hnodup Hget. rewrite add_columns_other.
    + by apply add_columns_value.
    + by intros (k' & ? & _)%list_elem_of_fmap.
  - intros k v Hnodup Hget. by apply add_columns_value.
Qed.
End SavingFacts.

(** ** The cells of the flattened table *)

Lemma save_csv_table (py_str : pyval → string) (entities : export_result)
    (output_file : string) (fs : filesystem) :
  0 < total_entities entities →
  Forall (λ item, flattenable item.2) (entity_rows entities) →
  save_entities py_str entities output_file "csv" fs
  = (Return tt,
     <[output_file :=
         CsvTable
           (sorted (collect_fieldnames (entity_row py_str <$> entity_rows entities)))
           (row_cells
              (sorted (collect_fieldnames (entity_row py_str <$> entity_rows entities)))
              <$> (entity_row py_str <$> entity_rows entities))]> fs).
Proof.
  intros Hsome Hok. unfold save_entities.
  change (String.eqb (lower "csv") "json") with false.
  change (String.eqb (lower "csv") "yaml") with false.
  change (String.eqb (lower "csv") "csv") with true. cbn iota.
  rewrite flatten_rows by done. rewrite bool_decide_eq_false_2; [done|].
  intros Hnil%(f_equal length). rewrite length_fmap, length_entity_rows in Hnil.
  cbn in Hnil. lia.
Qed.

Lemma row_cells_lookup (fieldnames : list string) (row : dict pyval)
    (j : nat) (c : string) :
  fieldnames !! j = Some c →
  row_cells fieldnames row !! j
  = Some (default (PStr EmptyString) (dict_get c row)).
Proof. intros Hj. unfold row_cells. by rewrite list_lookup_fmap, Hj. Qed.

(** X8: in the table written for an export result with at least one entity
    (all of them mappings whose properties and relations are mappings when
    present), the row of an entity holds, under [blueprint_id], the
    blueprint the entity is exported under; under each of the six other
    fixed columns, the entity's field of that name, or the empty string
    when it has none; and under [prop_<k>] and [rel_<k>], the text of the
    entity's property or relation [k], the empty string for [None]. *)
Theorem csv_cells_hold_entity_values (py_str : pyval → string)
    (entities : export_result) (output_file : string) (fs : filesystem) :
  0 < total_entities entities →
  Forall (λ item, flattenable item.2) (entity_rows entities) →
  ∃ fieldnames rows,
    save_entities py_str entities output_file "csv" fs
    = (Return tt, <[output_file := CsvTable fieldnames rows]> fs)
    ∧ Forall2 (λ item cells,
        ∀ j c, fieldnames !! j = Some c →
          (c = "blueprint_id" → cells !! j = Some (PStr item.1))
          ∧ (∀ key, (c, key) ∈ copied_fields →
                    cells !! j = Some (field_or_empty key item.2))
          ∧ (∀ k v, c = "prop_" +:+ k →
                    NoDup (dict_keys (mapping_under "properties" item.2)) →
                    dict_get k (mapping_under "properties" item.2) = Some v →
                    cells !! j = Some (cell_text py_str v))
          ∧ (∀ k v, c = "rel_" +:+ k →
                    NoDup (dict_keys (mapping_under "relations" item.2)) →
                    dict_get k (mapping_under "relations" item.2) = Some v →
                    cells !! j = Some (cell_text py_str v)))
        (entity_rows entities) rows.
Proof.
  intros Hsome Hok. eexists _, _. split; [by apply save_csv_table|].
  rewrite <- list_fmap_compose. apply Forall2_fmap_r, Forall_Forall2_diag.
  apply Forall_forall. intros [blueprint_id entity] Hitem j c Hj. cbn [compose].
  rewrite (row_cells_lookup _ _ _ _ Hj).
  pose proof (proj1 (Forall_forall _ _) Hok _ Hitem) as Hentity. cbn [snd] in Hentity.
  destruct Hentity as (fields & -> & Hprops & Hrels).
  destruct (entity_row_cells py_str blueprint_id fields)
    as (Hblueprint & Hcopied & Hprop & Hrel); [by exists fields|].
  cbn [fst snd]. split_and!.
  - intros ->. by rewrite Hblueprint.
  - intros key Hkey. by rewrite (Hcopied _ _ Hkey).
  - intros k v -> Hnodup Hget. by rewrite (Hprop _ _ Hnodup Hget).
  - intros k v -> Hnodup Hget. by rewrite (Hrel _ _ Hnodup Hget).
Qed.

Lemma csv_cells_hold_entity_values_witness :
  ∃ fieldnames rows,
    save_entities (λ _, "text")
      [("svc", [PDict [("identifier", PStr "a");
                       ("properties", PDict [("tier", PInt 1)])]])]
      "out.csv" "csv" ∅
    = (Return tt, <["out.csv" := CsvTable fieldnames rows]> ∅)
    ∧ length rows = 1.
Proof.
  destruct (csv_cells_hold_entity_values (λ _, "text")
              [("svc", [PDict [("identifier", PStr "a");
                               ("properties", PDict [("tier", PInt 1)])]])]
              "out.csv" ∅) as (fieldnames & rows & Hsave & Hcells).
  - cbn. lia.
  - repeat constructor; eexists; (split; [reflexivity|]); split;
      first [by left | right; by eexists].
  - exists fieldnames, rows. split; [exact Hsave|].
    apply Forall2_length in Hcells. by rewrite <- Hcells.
Defined.


(** ** The exporter's base address *)

Lemma append_empty (s : string) : EmptyString +:+ s = s.
Proof. reflexivity. Qed.

Lemma append_String (c : ascii) (s t : string) :
  String c s +:+ t = String c (s +:+ t).
Proof. reflexivity. Qed.

Ltac push_append := rewrite ?append_String, ?append_empty in *.

Lemma rstrip_slash_slashes (n : nat) : rstrip_slash (slashes n) = EmptyString.
Proof. induction n as [|n IH]; [done|]. cbn. by rewrite IH. Qed.

Lemma rstrip_slash_app_slashes (s : string) (n : nat) :
  rstrip_slash (s +:+ slashes n) = rstrip_slash s.
Proof.
  induction s as [|c rest IH].
  - apply rstrip_slash_slashes.
  - change (String c rest +:+ slashes n) with (String c (rest +:+ slashes n)).
    cbn [rstrip_slash]. by rewrite IH.
Qed.

Lemma rstrip_slash_removes_slashes (s : string) :
  ∃ n, s = rstrip_slash s +:+ slashes n.
Proof.
  induction s as [|c rest [n IH]]; [by exists 0%nat|].
  cbn [rstrip_slash]. destruct (rstrip_slash rest) as [|c' rest'] eqn:Hrest.
  - cbn in IH. subst rest. destruct (Ascii.eqb_spec c "/"%char) as [->|_].
    + by exists (S n).
    + by exists n.
  - exists n.
    change (String c rest = String c (String c' rest' +:+ slashes n)).
    by rewrite <- IH.
Qed.

Lemma endswith_true (s suffix : string) :
  endswith s suffix = true ↔ ∃ before, s = before +:+ suffix.
Proof.
  induction s as [|c rest IH]; cbn [endswith].
  - rewrite orb_false_r. split.
    + intros ->%String.eqb_eq. by exists EmptyString.
    + intros [[|c before] Heq]; [|done].
      change (EmptyString = suffix) in Heq. subst suffix. apply String.eqb_refl.
  - rewrite orb_true_iff, IH. split.
    + intros [->%String.eqb_eq|[before ->]].
      * by exists EmptyString.
      * by exists (String c before).
    + intros [[|c' before] Heq].
      * left. change (String c rest = suffix) in Heq. subst suffix.
        apply String.eqb_refl.
      * right. change (String c rest = String c' (before +:+ suffix)) in Heq.
        injection Heq as -> ->. by exists before.
Qed.

Lemma rstrip_slash_no_trailing (s before : string) :
  rstrip_slash s ≠ before +:+ "/".
Proof.
  revert before. induction s as [|c rest IH]; intros before.
  - by destruct before.
  - cbn [rstrip_slash]. destruct (rstrip_slash rest) as [|c' rest'] eqn:Hrest.
    + destruct (Ascii.eqb_spec c "/"%char) as [->|Hc]; [by destruct before|].
      destruct before as [|b [|b' before]]; push_append; congruence.
    + destruct before as [|b before]; push_append; [congruence|].
      intros [= -> Heq]. by apply (IH before).
Qed.

(** X9: the base address an exporter keeps is the one it was given with
    its trailing slashes removed, and nothing else: it never ends with a
    slash, it differs from the given address by a run of slashes at the
    end, and addresses that differ only in trailing slashes give the same
    exporter. *)
Theorem init_strips_trailing_slashes (id secret url : string) :
  endswith (exporter_base_url (init id secret url)) "/" = false
  ∧ (∃ n, url = exporter_base_url (init id secret url) +:+ slashes n)
  ∧ (∀ n, init id secret (url +:+ slashes n) = init id secret url).
Proof.
  cbn [init exporter_base_url]. split_and!.
  - apply not_true_is_false. intros [before Heq]%endswith_true.
    by apply rstrip_slash_no_trailing in Heq.
  - apply rstrip_slash_removes_slashes.
  - intros n. unfold init. by rewrite rstrip_slash_app_slashes.
Qed.

(** ** Authentication *)

Section AuthenticateFacts.
Variable requests_post : string → pyval → http_outcome.
Variable py_str : pyval → string.

Lemma grants_functional (outcome : http_outcome) (token token' : pyval) :
  grants outcome token → grants outcome token' → token = token'.
Proof.
  intros (status & fields & -> & _ & Hget & _) (? & ? & [= <- <-] & _ & Hget' & _).
  congruence.
Qed.

Lemma authenticate_granted (self : exporter) (token : pyval) :
  grants (requests_post auth_url (auth_payload self)) token →
  authenticate requests_post py_str self
  = (true,
     {| client_id := client_id self;
        client_secret := client_secret self;
        exporter_base_url := exporter_base_url self;
        access_token := token;
        session_headers :=
          dict_set "Authorization" ("Bearer " +:+ format_value py_str token)
            (session_headers self) |}).
Proof.
  intros (status & fields & Hpost & Hstatus & Hget & Htruthy).
  unfold authenticate, authenticate_try. rewrite Hpost.
  unfold raise_for_status. rewrite bool_decide_false by done.
  run_result. cbn [response_json py_get]. rewrite Hget.
  cbn [default from_option id]. by rewrite Htruthy.
Qed.

Lemma authenticate_refused (self : exporter) :
  (∀ token, ¬ grants (requests_post auth_url (auth_payload self)) token) →
  (authenticate requests_post py_str self).1 = false
  ∧ session_headers (authenticate requests_post py_str self).2
    = session_headers self
  ∧ exporter_base_url (authenticate requests_post py_str self).2
    = exporter_base_url self.
Proof.
  intros Hno. unfold authenticate, authenticate_try.
  destruct (requests_post auth_url (auth_payload self))
    as [|status json] eqn:Hpost; [done|].
  unfold raise_for_status. case_bool_decide as Hstatus; run_result.
  { done. }
  destruct json as [data|]; cbn [response_json]; [|done].
  destruct data as [| | | | | |fields]; cbn [py_get]; try done.
  destruct (truthy (default PNone (dict_get "accessToken" fields))) eqn:Htruthy;
    [|done].
  destruct (dict_get "accessToken" fields) as [token|] eqn:Hget; [|done].
  exfalso. apply (Hno token). by exists status, fields.
Qed.

Lemma grants_dec (outcome : http_outcome) :
  (∃ token, grants outcome token) ∨ (∀ token, ¬ grants outcome token).
Proof.
  destruct outcome as [|status [data|]];
    [right; by intros ? (? & ? & ? & _)| |right; by intros ? (? & ? & ? & _)].
  destruct (decide (400 ≤ status < 600)%Z) as [Hstatus|Hstatus].
  { right. intros ? (? & ? & [= <- _] & ? & _). done. }
  destruct data as [| | | | | |fields];
    try (right; by intros ? (? & ? & ? & _)).
  destruct (dict_get "accessToken" fields) as [token|] eqn:Hget.
  - destruct (truthy token) eqn:Htruthy.
    + left. exists token, status, fields. done.
    + right. intros ? (? & ? & [= <- <-] & _ & Hget' & Htruthy'). congruence.
  - right. intros ? (? & ? & [= <- <-] & _ & Hget' & _). congruence.
Qed.

(** X10: [authenticate] answers [True] exactly when the authentication
    request is answered without an error status by a mapping that holds a
    truthy value under ['accessToken']. It then keeps that value as the
    access token and puts [Bearer] followed by its text under
    [Authorization] on the session, leaving the other headers as they
    were. In every other case, whatever went wrong, it answers [False] and
    the session headers are unchanged. The credentials and the base
    address are never modified. *)
Theorem authenticate_outcome (self : exporter) :
  let outcome := requests_post auth_url (auth_payload self) in
  let authenticated := (authenticate requests_post py_str self).1 in
  let self' := (authenticate requests_post py_str self).2 in
  (authenticated = true ↔ ∃ token, grants outcome token)
  ∧ (∀ token, grants outcome token →
       access_token self' = token
       ∧ dict_get "Authorization" (session_headers self')
         = Some ("Bearer " +:+ format_value py_str token)
       ∧ ∀ name, name ≠ "Authorization" →
           dict_get name (session_headers self')
           = dict_get name (session_headers self))
  ∧ (authenticated = false → session_headers self' = session_headers self)
  ∧ client_id self' = client_id self
  ∧ client_secret self' = client_secret self
  ∧ exporter_base_url self' = exporter_base_url self.
Proof.
  cbn zeta.
  destruct (grants_dec (requests_post auth_url (auth_payload self)))
    as [[token Hgrants]|Hno].
  - rewrite (authenticate_granted self token Hgrants). cbn [fst snd].
    split_and!; try done.
    + split; [by exists token|done].
    + intros token' Hgrants'.
      rewrite (grants_functional _ _ _ Hgrants' Hgrants).
      cbn. split_and!; [done|apply dict_get_set_eq|].
      intros name Hname. by apply dict_get_set_ne.
  - destruct (authenticate_refused self Hno) as (Hfalse & Hheaders & Hbase).
    split_and!.
    + rewrite Hfalse. split; [done|]. intros [token Hgrants]. by apply Hno in Hgrants.
    + intros token Hgrants. by apply Hno in Hgrants.
    + done.
    + unfold authenticate, authenticate_try.
      destruct (requests_post _ _); [done|].
      destruct (_ ≫= _) as [token|e]; [|by destruct (is_request_exception e)].
      by destruct (negb _).
    + unfold authenticate, authenticate_try.
      destruct (requests_post _ _); [done|].
      destruct (_ ≫= _) as [token|e]; [|by destruct (is_request_exception e)].
      by destruct (negb _).
    + done.
Qed.

(** X11: authentication does not use the exporter's base address. The
    request always goes to [auth_url], so two exporters with the same
    credentials, whatever their base addresses, are answered alike:
    the same result, the same access token, the same session headers. *)
Theorem authenticate_ignores_base_url (id secret url url' : string) :
  let run := authenticate requests_post py_str (init id secret url) in
  let run' := authenticate requests_post py_str (init id secret url') in
  run.1 = run'.1
  ∧ access_token run.2 = access_token run'.2
  ∧ session_headers run.2 = session_headers run'.2
  ∧ exporter_base_url run.2 = rstrip_slash url
  ∧ exporter_base_url run'.2 = rstrip_slash url'.
Proof.
  cbn zeta. unfold authenticate, authenticate_try, auth_payload, init.
  cbn [client_id client_secret exporter_base_url access_token session_headers].
  destruct (requests_post _ _); [done|].
  destruct (_ ≫= _) as [token|e]; [|by destruct (is_request_exception e)].
  by destruct (negb _).
Qed.
End AuthenticateFacts.

(** ** The listing requests *)

Lemma serves_functional (outcome : http_outcome) (field : string) (v v' : pyval) :
  serves outcome field v → serves outcome field v' → v = v'.
Proof.
  intros (status & fields & -> & _ & Hget & _) (? & ? & [= <- <-] & _ & Hget' & _).
  congruence.
Qed.

Lemma read_listing_cases (outcome : http_outcome) (field : string) :
  (∃ v, serves outcome field v ∧ read_listing outcome field = Return v)
  ∨ ((∀ v, ¬ serves outcome field v)
     ∧ ((∃ e, read_listing outcome field = Raise e)
        ∨ read_listing outcome field = Return (PList []))).
Proof.
  destruct outcome as [|status json].
  { right. split; [by intros ? (? & ? & ? & _)|]. left. by eexists. }
  unfold read_listing, raise_for_status. case_bool_decide as Hstatus; run_result.
  { right. split; [|left; by eexists]. by intros ? (? & ? & [= <- _] & ? & _). }
  destruct json as [data|]; cbn [response_json].
  2: { right. split; [by intros ? (? & ? & ? & _)|]. left. by eexists. }
  destruct data as [| | | | | |fields]; cbn [py_get];
    try (right; split; [by intros ? (? & ? & ? & _)|left; by eexists]).
  destruct (dict_get field fields) as [v|] eqn:Hget; cbn [default from_option id].
  - destruct (sized v) eqn:Hsized.
    + left. exists v. split; [by exists status, fields|].
      by destruct v.
    + right. split.
      * intros ? (? & ? & [= <- <-] & _ & Hget' & Hsized'). congruence.
      * left. destruct v; try done; by eexists.
  - right. split; [|by right].
    intros ? (? & ? & [= <- <-] & _ & Hget' & _). congruence.
Qed.

(** X12: what the two listing requests return. [get_blueprints] requests
    [<base>/blueprints] and reads the field ['blueprints'];
    [get_entities_for_blueprint] requests [<base>/blueprints/<id>/entities],
    with [exclude_calculated_properties=true] when calculated properties
    are not wanted, and reads ['entities']. When the response has no error
    status, its body is a mapping and the field holds a value with a
    length, that value is returned as it is, whether or not it is a list.
    In every other case (no response, an error status, a body that does
    not parse or is not a mapping, a field that is missing, null, a number
    or a boolean) the empty list is returned. So the result always has a
    length, and a failure cannot be told from an empty listing. *)
Theorem listing_requests_value (srv : catalog) (blueprint_id : string)
    (include_calculated : bool) :
  let blueprints_response := session_get srv (base_url srv +:+ "/blueprints") [] in
  let entities_response :=
    session_get srv (base_url srv +:+ "/blueprints/" +:+ blueprint_id +:+ "/entities")
      (if include_calculated then []
       else [("exclude_calculated_properties", "true")]) in
  let blueprints := get_blueprints_http srv in
  let entities := get_entities_for_blueprint_http srv blueprint_id include_calculated in
  (∀ v, serves blueprints_response "blueprints" v → blueprints = v)
  ∧ ((∀ v, ¬ serves blueprints_response "blueprints" v) → blueprints = PList [])
  ∧ sized blueprints = true
  ∧ (∀ v, serves entities_response "entities" v → entities = v)
  ∧ ((∀ v, ¬ serves entities_response "entities" v) → entities = PList [])
  ∧ sized entities = true.
Proof.
  cbn zeta. unfold get_blueprints_http, get_entities_for_blueprint_http.
  fold (calculated_params include_calculated).
  set (blueprints_response := session_get srv _ []).
  set (entities_response := session_get srv _ (calculated_params _)).
  assert (∀ outcome field,
    let value :=
      match read_listing outcome field with
      | Return listing => listing
      | Raise e => if is_request_exception e then PList [] else PList []
      end in
    (∀ v, serves outcome field v → value = v)
    ∧ ((∀ v, ¬ serves outcome field v) → value = PList [])
    ∧ sized value = true) as Hboth.
  { intros outcome field. cbn zeta.
    destruct (read_listing_cases outcome field)
      as [(v & Hserves & ->)|[Hno [[e ->]| ->]]].
    - split_and!.
      + intros v' Hserves'. by apply (serves_functional outcome field).
      + intros Hno. by apply Hno in Hserves.
      + by destruct Hserves as (? & ? & _ & _ & _ & ?).
    - split_and!.
      + intros v Hserves. by apply Hno in Hserves.
      + intros _. by destruct (is_request_exception e).
      + by destruct (is_request_exception e).
    - split_and!; [|done..]. intros v Hserves. by apply Hno in Hserves. }
  destruct (Hboth blueprints_response "blueprints") as (? & ? & ?).
  destruct (Hboth entities_response "entities") as (? & ? & ?).
  done.
Qed.

(** ** Comma-separated lists and the output file name *)

Lemma split_commas_no_comma (s : string) :
  has_comma s = false → split_commas s = [s].
Proof.
  induction s as [|c rest IH]; [done|]. cbn [has_comma split_commas].
  intros [Hc Hrest]%orb_false_iff. by rewrite Hc, IH.
Qed.

Lemma split_commas_item (item rest : string) :
  has_comma item = false →
  split_commas (item +:+ "," +:+ rest) = item :: split_commas rest.
Proof.
  induction item as [|c item IH]; [done|]. cbn [has_comma].
  intros [Hc Hitem]%orb_false_iff. rewrite append_String.
  cbn [split_commas]. by rewrite Hc, IH.
Qed.

Lemma split_commas_join (items : list string) :
  items ≠ [] → Forall (λ item, has_comma item = false) items →
  split_commas (join_commas items) = items.
Proof.
  induction items as [|item [|item' items] IH]; [done| |].
  - intros _ [Hitem _]%Forall_cons. by apply split_commas_no_comma.
  - intros _ [Hitem Hitems]%Forall_cons.
    change (join_commas (item :: item' :: items))
      with (item +:+ "," +:+ join_commas (item' :: items)).
    by rewrite split_commas_item, IH.
Qed.

Lemma join_commas_nonempty (items : list string) :
  items ≠ [] → Forall (λ item, item ≠ EmptyString) items →
  join_commas items ≠ EmptyString.
Proof.
  destruct items as [|item [|item' items]]; [done| |].
  - by intros _ [? _]%Forall_cons.
  - intros _ [Hitem _]%Forall_cons. by destruct item.
Qed.

Section ListParsing.
Variable py_strip : string → string.

Lemma parse_list_pieces (pieces : list string) :
  Forall (clean_item py_strip) pieces →
  py_strip <$> filter (λ item, py_strip item ≠ EmptyString) pieces = pieces.
Proof.
  induction 1 as [|item pieces (_ & Hstrip & Hitem) _ IH]; [done|].
  rewrite filter_cons_True by (by rewrite Hstrip).
  rewrite fmap_cons. by rewrite Hstrip, IH.
Qed.

Lemma elem_of_parse_list (s piece : string) :
  piece ∈ split_commas s → py_strip piece ≠ EmptyString →
  py_strip piece ∈ parse_list py_strip s.
Proof.
  intros Hpiece Hstrip. unfold parse_list.
  apply list_elem_of_fmap. exists piece. split; [done|].
  by apply list_elem_of_filter.
Qed.
End ListParsing.

(** X13: a comma-separated option parses back to the list it was joined
    from. For a non-empty list of items none of which is empty, contains a
    comma or is changed by [strip], parsing the items joined by commas
    gives the same items in the same order, and the exclusion set parsed
    from them holds exactly these items. *)
Theorem parse_list_round_trip (py_strip : string → string) (items : list string) :
  items ≠ [] →
  Forall (clean_item py_strip) items →
  parse_list py_strip (join_commas items) = items
  ∧ parse_exclude py_strip (Some (join_commas items)) = list_to_set items.
Proof.
  intros Hitems Hclean.
  assert (parse_list py_strip (join_commas items) = items) as Hparse.
  { unfold parse_list. rewrite split_commas_join.
    - by apply parse_list_pieces.
    - done.
    - eapply Forall_impl; [exact Hclean|]. by intros item (? & _). }
  split; [done|]. unfold parse_exclude.
  destruct (String.eqb_spec (join_commas items) EmptyString) as [Hempty|_].
  - exfalso. revert Hempty. apply join_commas_nonempty; [done|].
    eapply Forall_impl; [exact Hclean|]. by intros item (_ & _ & ?).
  - cbn [negb]. by rewrite Hparse.
Qed.

(** The identifiers [svc-1] and [db 2], with [strip] removing nothing. *)
Lemma parse_list_round_trip_witness :
  parse_list (λ s, s) "svc-1,db 2" = ["svc-1"; "db 2"]
  ∧ parse_exclude (λ s, s) (Some "svc-1,db 2") = list_to_set ["svc-1"; "db 2"].
Proof.
  apply (parse_list_round_trip (λ s, s) ["svc-1"; "db 2"]).
  - discriminate.
  - repeat constructor; discriminate.
Defined.

Lemma endswith_append (before suffix : string) :
  endswith (before +:+ suffix) suffix = true.
Proof. apply endswith_true. by exists before. Qed.

(** X14: the file [main] saves to always carries the extension of the
    format. Its name ends with a dot followed by the format; it is the
    given output name when that already ends so, and the output name with
    the extension appended otherwise; and naming twice changes nothing, so
    an extension is never doubled. *)
Theorem output_file_has_extension (output : string) (format : output_format) :
  let extension := "." +:+ format_name format in
  endswith (output_file output format) extension = true
  ∧ (endswith output extension = true → output_file output format = output)
  ∧ (endswith output extension = false →
       output_file output format = output +:+ extension)
  ∧ output_file (output_file output format) format = output_file output format.
Proof.
  cbn zeta.
  assert (endswith (output_file output format) ("." +:+ format_name format) = true)
    as Hends.
  { unfold output_file.
    destruct (endswith output ("." +:+ format_name format)) eqn:Hends; [done|].
    apply endswith_append. }
  split_and!.
  - done.
  - unfold output_file. by intros ->.
  - unfold output_file. by intros ->.
  - unfold output_file at 1. by rewrite Hends.
Qed.

(** [report] gets the extension, [report.json] keeps its name. *)
Lemma output_file_has_extension_witness :
  output_file "report" FormatJson = "report.json"
  ∧ output_file "report.json" FormatJson = "report.json".
Proof.
  split.
  - apply (proj1 (proj2 (proj2 (output_file_has_extension "report" FormatJson)))).
    reflexivity.
  - apply (proj1 (proj2 (output_file_has_extension "report.json" FormatJson))).
    reflexivity.
Defined.

(** ** The command line *)

Section MainFacts.
Variable py_strip : string → string.
Variable py_str : pyval → string.
Variable requests_post : string → pyval → http_outcome.
Variable port : catalog.

Lemma save_entities_raise_unchanged (entities : export_result)
    (path format : string) (fs fs' : filesystem) (e : exn) :
  save_entities py_str entities path format fs = (Raise e, fs') → fs' = fs.
Proof.
  unfold save_entities.
  destruct (String.eqb (lower format) "json"); [done|].
  destruct (String.eqb (lower format) "yaml"); [done|].
  destruct (String.eqb (lower format) "csv"); [|by intros [= _ <-]].
  destruct (flatten py_str entities) as [flattened_data|e']; [|by intros [= _ <-]].
  by destruct (bool_decide (flattened_data = [])).
Qed.

Lemma chosen_option_valid (args : arguments) :
  valid_arguments args → is_Some (chosen_option py_strip args).
Proof.
  intros (_ & _ & Hone). unfold chosen_option.
  destruct (arg_export_all args); [done|].
  destruct (given (arg_blueprints args)); [done|].
  by destruct (given (arg_entities args)).
Qed.

Lemma main_takes_a_course (args : arguments) (fs : filesystem) :
  main_course py_strip py_str requests_post port args fs
    (main py_strip py_str requests_post port args fs).
Proof.
  unfold main.
  destruct (given (arg_client_id args)) eqn:Hid; cbn [negb orb].
  2: { apply RejectedArguments; cbn; try done.
       - intros (? & _). congruence.
       - by left.
       - split; [by left|done]. }
  destruct (given (arg_client_secret args)) eqn:Hsecret; cbn [negb].
  2: { apply RejectedArguments; cbn; try done.
       - intros (_ & ? & _). congruence.
       - by left.
       - split; [by right|done]. }
  destruct (Nat.eqb_spec
              (sum_list (Nat.b2n <$> [arg_export_all args; given (arg_blueprints args);
                                      given (arg_entities args)])) 1) as [Hone|Hone];
    cbn [negb].
  2: { apply RejectedArguments; cbn; try done.
       - by intros (_ & _ & ?).
       - by right.
       - split; [done|]. intros [?|?]; congruence. }
  assert (valid_arguments args) as Hvalid by done.
  set (exporter := init _ _ _).
  change (auth_payload exporter) with (credentials_payload args).
  destruct (grants_dec (requests_post auth_url (credentials_payload args)))
    as [[token Hgrants]|Hno].
  2: { destruct (authenticate_refused requests_post py_str exporter Hno)
         as (Hfalse & _).
       destruct (authenticate requests_post py_str exporter) as [ok self'].
       cbn [fst] in Hfalse. subst ok. cbn [negb].
       by apply RefusedCredentials. }
  rewrite (authenticate_granted requests_post py_str exporter token Hgrants).
  cbn [negb]. unfold export_and_save.
  destruct (chosen_option_valid args Hvalid) as [option Hoption].
  rewrite Hoption. cbn [exporter_base_url exporter init].
  fold (main_service port args).
  destruct (main_export (main_service port args) option _ _ [])
    as [[exported|e] log] eqn:Hexport.
  2: { by eapply (ExportRaised _ _ _ _ _ _ _ option e); try done; eexists. }
  destruct (save_entities py_str exported _ _ fs) as [[[]|e] fs'] eqn:Hsave.
  - by eapply (Saved _ _ _ _ _ _ _ option exported); try done; eexists.
  - pose proof (save_entities_raise_unchanged _ _ _ _ _ _ Hsave) as ->.
    by eapply (SaveRaised _ _ _ _ _ _ _ option exported e); try done; eexists.
Qed.
End MainFacts.

Section MainProperties.
Variable py_strip : string → string.
Variable py_str : pyval → string.
Variable requests_post : string → pyval → http_outcome.
Variable port : catalog.



Lemma chosen_listing_mode (args : arguments) (option : export_option) :
  chosen_option py_strip args = Some option →
  given (arg_entities args) = false →
  ∀ entity_list, option ≠ ExportEntities entity_list.
Proof.
  unfold chosen_option. intros Hoption Hentities entity_list.
  destruct (arg_export_all args); [congruence|].
  destruct (given (arg_blueprints args)); [congruence|].
  rewrite Hentities in Hoption. done.
Qed.

Lemma save_entities_document (format : output_format) (entities : export_result)
    (path : string) (fs fs' : filesystem) :
  format ≠ FormatCsv →
  save_entities py_str entities path (format_name format) fs = (Return tt, fs') →
  fs' !! path = document format entities.
Proof.
  intros Hformat. unfold save_entities.
  destruct format; [| |done]; cbn [format_name document].
  - change (String.eqb (lower "json") "json") with true. cbn match.
    intros [= <-]. apply lookup_insert_eq.
  - change (String.eqb (lower "yaml") "json") with false.
    change (String.eqb (lower "yaml") "yaml") with true. cbn match.
    intros [= <-]. apply lookup_insert_eq.
Qed.

(** X17: the identifiers given to [--exclude] never reach the output of
    all-entities mode or named-collections mode. When [main] returns
    normally and [--entities] is not the chosen option, what it saved under
    the output file name is an export result in which no entity has as its
    identifier a non-empty, stripped piece of the comma-separated
    [--exclude] value; for [json] and [yaml] the file holds that result as
    a document. *)
Theorem main_output_respects_exclude (args : arguments) (fs : filesystem) :
  let r := main py_strip py_str requests_post port args fs in
  let path := output_file (arg_output args) (arg_format args) in
  failed r = None →
  given (arg_entities args) = false →
  ∃ exported,
    save_entities py_str exported path (format_name (arg_format args)) fs
    = (Return tt, files r)
    ∧ (arg_format args ≠ FormatCsv →
         files r !! path = document (arg_format args) exported)
    ∧ ∀ c entities entity s piece,
        dict_get c exported = Some entities → entity ∈ entities →
        arg_exclude args = Some s → s ≠ EmptyString →
        piece ∈ split_commas s → py_strip piece ≠ EmptyString →
        identifier_of entity ≠ PStr (py_strip piece).
Proof.
  cbn zeta. intros Hnone Hentities.
  destruct (main_takes_a_course py_strip py_str requests_post port args fs)
    as [Hinvalid Hfailed Hmissing Hposts Hrequests Hfiles
       |Hvalid Hno Hfailed Hposts Hrequests Hfiles
       |option e Hvalid Hgrants Hoption Hexport Hfailed Hposts Hfiles
       |option exported e Hvalid Hgrants Hoption Hexport Hsave Hfailed Hposts Hfiles
       |option exported Hvalid Hgrants Hoption Hexport Hsave Hfailed Hposts];
    [destruct Hfailed; congruence|congruence..|].
  exists exported. split_and!.
  - done.
  - intros Hformat. by eapply save_entities_document.
  - intros c entities entity s piece Hget Hentity Hexclude Hs Hpiece Hstrip Hid.
    assert (holds_filtered (main_service port args) (arg_include_calculated args)
              (parse_exclude py_strip (arg_exclude args)) exported) as Hheld.
    { pose proof (chosen_listing_mode args option Hoption Hentities) as Hmode.
      destruct option as [|blueprint_list|entity_list]; cbn [main_export] in Hexport.
      - rewrite export_all_entities_run in Hexport.
        by apply export_blueprint_entities_invariant in Hexport as [_ ?].
      - by apply export_blueprint_entities_invariant in Hexport as [_ ?].
      - by destruct (Hmode entity_list). }
    apply Hheld, filter_excluded_sound in Hget as [_ Hpass].
    rewrite Forall_forall in Hpass.
    destruct (Hpass entity Hentity) as (_ & _ & Hkept).
    unfold is_excluded in Hkept. rewrite Hid in Hkept.
    apply bool_decide_eq_false in Hkept. apply Hkept.
    rewrite Hexclude. unfold parse_exclude.
    destruct (String.eqb_spec s EmptyString) as [?|_]; [done|]. cbn [negb].
    apply elem_of_list_to_set. by apply elem_of_parse_list.
Qed.

(** X18: a list option that holds nothing but separators is accepted and
    exports nothing. With valid arguments and a granted token, when the
    value of [--blueprints] or [--entities] parses to the empty list,
    [main] makes no catalog request and returns normally; for [json] and
    [yaml] it writes the document of the empty mapping to the output file,
    for [csv] it writes no file. *)
Theorem main_empty_list_exports_nothing (args : arguments) (fs : filesystem) :
  let r := main py_strip py_str requests_post port args fs in
  valid_arguments args →
  (∃ token, grants (requests_post auth_url (credentials_payload args)) token) →
  chosen_option py_strip args = Some (ExportBlueprints [])
  ∨ chosen_option py_strip args = Some (ExportEntities []) →
  failed r = None
  ∧ requests r = []
  ∧ files r
    = with_empty_export (arg_format args)
        (output_file (arg_output args) (arg_format args)) fs.
Proof.
  cbn zeta. intros Hvalid' Hgrants' Hempty.
  assert (∀ option,
    chosen_option py_strip args = Some option →
    main_export (main_service port args) option
      (parse_exclude py_strip (arg_exclude args)) (arg_include_calculated args) []
    = (Return [], [])) as Hnothing.
  { intros option Hoption. rewrite Hoption in Hempty.
    by destruct Hempty as [[= ->]|[= ->]]. }
  assert (∀ outcome fs',
    save_entities py_str [] (output_file (arg_output args) (arg_format args))
      (format_name (arg_format args)) fs = (outcome, fs') →
    outcome = Return tt
    ∧ fs' = with_empty_export (arg_format args)
              (output_file (arg_output args) (arg_format args)) fs) as Hwritten.
  { intros outcome fs'. unfold save_entities, with_empty_export.
    destruct (arg_format args); cbn [format_name].
    - change (String.eqb (lower "json") "json") with true. cbn match.
      by intros [= <- <-].
    - change (String.eqb (lower "yaml") "json") with false.
      change (String.eqb (lower "yaml") "yaml") with true. cbn match.
      by intros [= <- <-].
    - change (String.eqb (lower "csv") "json") with false.
      change (String.eqb (lower "csv") "yaml") with false.
      change (String.eqb (lower "csv") "csv") with true. cbn match.
      rewrite flatten_no_entities by done.
      by intros [= <- <-]. }
  destruct (main_takes_a_course py_strip py_str requests_post port args fs)
    as [Hinvalid Hfailed Hmissing Hposts Hrequests Hfiles
       |Hvalid Hno Hfailed Hposts Hrequests Hfiles
       |option e Hvalid Hgrants Hoption Hexport Hfailed Hposts Hfiles
       |option exported e Hvalid Hgrants Hoption Hexport Hsave Hfailed Hposts Hfiles
       |option exported Hvalid Hgrants Hoption Hexport Hsave Hfailed Hposts].
  - done.
  - destruct Hgrants' as [token Hgrants']. by apply Hno in Hgrants'.
  - rewrite (Hnothing option Hoption) in Hexport. done.
  - rewrite (Hnothing option Hoption) in Hexport. injection Hexport as <- _.
    by apply Hwritten in Hsave as [? _].
  - rewrite (Hnothing option Hoption) in Hexport. injection Hexport as <- <-.
    by apply Hwritten in Hsave as [_ ?].
Qed.
End MainProperties.



(** [--all --exclude b] on the sample catalog: the run succeeds and [b] is
    not in what it saved. *)
Lemma main_output_respects_exclude_witness :
  failed (main (λ s, s) (λ _, "text") granting_post sample_catalog all_but_b ∅) = None
  ∧ ∃ exported,
      save_entities (λ _, "text") exported "out.json" "json" ∅
      = (Return tt,
         files (main (λ s, s) (λ _, "text") granting_post sample_catalog all_but_b ∅))
      ∧ ∀ c entities entity,
          dict_get c exported = Some entities → entity ∈ entities →
          identifier_of entity ≠ PStr "b".
Proof.
  assert (failed (main (λ s, s) (λ _, "text") granting_post sample_catalog
                    all_but_b ∅) = None) as Hnone.
  { vm_compute. reflexivity. }
  split; [exact Hnone|].
  destruct (main_output_respects_exclude (λ s, s) (λ _, "text") granting_post
              sample_catalog all_but_b ∅ Hnone eq_refl)
    as (exported & Hsave & _ & Hexcluded).
  exists exported. split; [exact Hsave|].
  intros c entities entity Hget Hentity.
  apply (Hexcluded c entities entity "b" "b" Hget Hentity eq_refl).
  - discriminate.
  - apply list_elem_of_singleton. reflexivity.
  - discriminate.
Defined.

(** [--blueprints ,] with [yaml]: no request, and the output file holds the
    empty mapping. *)
Lemma main_empty_list_exports_nothing_witness :
  failed (main (λ s, s) (λ _, "text") granting_post sample_catalog
            only_a_separator ∅) = None
  ∧ requests (main (λ s, s) (λ _, "text") granting_post sample_catalog
                only_a_separator ∅) = []
  ∧ files (main (λ s, s) (λ _, "text") granting_post sample_catalog
             only_a_separator ∅)
    = {["out.yaml" := YamlDocument []]}.
Proof.
  apply (main_empty_list_exports_nothing (λ s, s) (λ _, "text") granting_post
           sample_catalog only_a_separator ∅).
  - split_and!; reflexivity.
  - exists (PStr "t"), 200%Z, [("accessToken", PStr "t")].
    split_and!; [reflexivity|lia|reflexivity|reflexivity].
  - left. reflexivity.
Defined.
